(** * backend/app.py: the deployment endpoint, embedded and verified

    The request handler [handle] of [src/backend/app.py] and its helpers
    are embedded as functions in a small reader/writer/error monad: the
    hosting platform and the callback endpoint are an oracle that answers
    the n-th outgoing HTTP call, every call and every [time.sleep] is
    recorded in the emitted trace, and a raised Python exception is the
    [Raise] result. *)

From Stdlib Require Import ZArith Lia Ascii String SpecFloat.
From stdpp Require Import gmap strings list fin_maps pretty.

Local Open Scope string_scope.
Local Open Scope Z_scope.
Local Open Scope list_scope.

(** ** Python values *)

(** The values produced by [json.loads]: the request body, the bodies of
    the platform's replies and everything copied from them.  JSON [null]
    is Python's [None].  A number without fraction or exponent is an
    [int]; any other number is a [float], an IEEE 754 double given by its
    sign, mantissa and binary exponent: [json.loads] reads [1e999] and
    the literals [Infinity] and [NaN] as the infinities and the NaN. *)
#[local] Set Warnings "-register-all".
Inductive json : Type :=
| JNull
| JBool (b : bool)
| JInt (z : Z)
| JStr (s : string)
| JList (l : list json)
| JDict (m : gmap string json)
| JFloat (f : spec_float).

(** The exceptions the handler can meet, by class. [TransportError] is
    httpx's family of network failures, [HTTPStatusError] what
    [raise_for_status] raises. All of them derive from [Exception]. *)
Inductive pyexc : Type :=
| ValueError
| TypeError
| KeyError
| AttributeError
| JSONDecodeError
| HTTPStatusError
| TransportError
| OverflowError.

(** What a Python call can raise here: FastAPI's [HTTPException], which the
    framework turns into a response with that status, or any other
    exception, which it leaves uncaught. *)
Inductive exn : Type :=
| HTTPException (status_code : Z) (detail : string)
| PyExc (e : pyexc).

Inductive result (A : Type) : Type :=
| Ok (a : A)
| Raise (e : exn).
Arguments Ok {A} a.
Arguments Raise {A} e.

(** Python truthiness, as used by [all([...])], [if pages_url] and [or]. *)
Definition truthy (v : json) : bool :=
  match v with
  | JNull => false
  | JBool b => b
  | JInt z => negb (Z.eqb z 0)
  | JStr s => negb (String.eqb s EmptyString)
  | JList l => match l with [] => false | _ => true end
  | JDict m => negb (bool_decide (m = ∅))
  | JFloat f => match f with S754_zero _ => false | _ => true end
  end.

(** [d.get(k)] and [d.get(k, default)] on a dict. *)
Definition dict_get (d : gmap string json) (k : string) : json :=
  default JNull (d !! k).

Definition dict_get_default (d : gmap string json) (k : string) (dflt : json) : json :=
  default dflt (d !! k).

(** [v[k]] with a string key: [KeyError] on a dict without the key,
    [TypeError] on every value that is not a dict. *)
Definition py_getitem (v : json) (k : string) : result json :=
  match v with
  | JDict m => match m !! k with
               | Some x => Ok x
               | None => Raise (PyExc KeyError)
               end
  | _ => Raise (PyExc TypeError)
  end.

(** [v.get(k)]: only dicts have the method. *)
Definition py_get_method (v : json) (k : string) : result json :=
  match v with
  | JDict m => Ok (dict_get m k)
  | _ => Raise (PyExc AttributeError)
  end.

(** The elements a [for] statement walks through: the items of a list, the
    keys of a dict, the characters of a string; other values are not
    iterable. *)
Definition py_iter (v : json) : result (list json) :=
  match v with
  | JList l => Ok l
  | JDict m => Ok (JStr <$> (map_to_list m).*1)
  | JStr s => Ok ((fun c => JStr (String c EmptyString)) <$> list_ascii_of_string s)
  | _ => Raise (PyExc TypeError)
  end.

(** ** Strings *)

(** [s.replace(old, new)] for one-character [old] and [new]. *)
Fixpoint str_replace (old new : ascii) (s : string) : string :=
  match s with
  | EmptyString => EmptyString
  | String c rest =>
      String (if Ascii.eqb c old then new else c) (str_replace old new rest)
  end.

(** [s.lower()] on the ASCII letters. *)
Definition ascii_lower (c : ascii) : ascii :=
  let n := nat_of_ascii c in
  if (Nat.leb 65 n && Nat.leb n 90)%bool then ascii_of_nat (n + 32) else c.

Fixpoint str_lower (s : string) : string :=
  match s with
  | EmptyString => EmptyString
  | String c rest => String (ascii_lower c) (str_lower rest)
  end.

(** [needle in s]. *)
Fixpoint str_contains (needle s : string) : bool :=
  if String.prefix needle s then true
  else match s with
       | EmptyString => false
       | String _ rest => str_contains needle rest
       end.

Fixpoint strip_prefix (p s : string) : option string :=
  match p, s with
  | EmptyString, _ => Some s
  | String a p', String b s' => if Ascii.eqb a b then strip_prefix p' s' else None
  | String _ _, EmptyString => None
  end.

(** The text before and after the first occurrence of [c]. *)
Fixpoint split_first (c : ascii) (s : string) : option (string * string) :=
  match s with
  | EmptyString => None
  | String a rest =>
      if Ascii.eqb a c then Some (EmptyString, rest)
      else match split_first c rest with
           | Some (before, after) => Some (String a before, after)
           | None => None
           end
  end.

Definition LF : ascii := ascii_of_nat 10.
Definition semicolon : ascii := ascii_of_nat 59.
Definition slash : ascii := ascii_of_nat 47.
Definition hyphen : ascii := ascii_of_nat 45.

(** [re.match] of the data-URI pattern of [_parse_data_uri] against
    [uri], returning group 1.  The pattern is anchored at both ends and
    has no flags: the literal [data:], one or more characters other than
    a semicolon (newlines included), the literal [;base64,], then the
    group, any run of characters other than a newline.  The dollar sign
    matches at the end of the string or before a final newline, so the
    text after the comma holds no newline except possibly as its last
    character, which stays outside the group. *)
Definition match_data_uri (uri : string) : option string :=
  match strip_prefix "data:" uri with
  | None => None
  | Some r1 =>
      match split_first semicolon r1 with
      | None => None
      | Some (mediatype, r2) =>
          if String.eqb mediatype EmptyString then None
          else match strip_prefix "base64," r2 with
               | None => None
               | Some r3 =>
                   match split_first LF r3 with
                   | None => Some r3
                   | Some (group, after) =>
                       if String.eqb after EmptyString then Some group else None
                   end
               end
      end
  end.

(** ** The Python runtime's library functions

    Three library functions are used as they come: [base64.b64decode] on
    the text of a data URI ([None] when it raises [binascii.Error]),
    [int] on a string ([None] when it raises [ValueError]) and [str] on a
    value that is not a string, as the f-strings apply it. *)
Class PyRuntime : Type := {
  b64decode : string -> option string;
  int_of_str : string -> option Z;
  py_str : json -> string;
}.

(** A runtime to evaluate the model on concrete requests.  It accepts
    less than Python does: canonical base64 without line breaks, decimal
    integers with an optional sign and nothing around them; and [show]
    stands in for [str] on lists, dicts and finite floats. *)
Module Reference.

Definition b64_value (c : ascii) : option N :=
  let n := N_of_ascii c in
  if (N.leb 65 n && N.leb n 90)%bool then Some (n - 65)%N
  else if (N.leb 97 n && N.leb n 122)%bool then Some (n - 71)%N
  else if (N.leb 48 n && N.leb n 57)%bool then Some (n + 4)%N
  else if N.eqb n 43 then Some 62%N
  else if N.eqb n 47 then Some 63%N
  else None.

Definition pad : ascii := ascii_of_nat 61.

Definition byte_of (n : N) : ascii := ascii_of_N (n mod 256).

Fixpoint decode_quads (l : list ascii) : option string :=
  match l with
  | [] => Some EmptyString
  | a :: b :: c :: d :: rest =>
      match b64_value a, b64_value b with
      | Some x, Some y =>
          let b0 := byte_of (x * 4 + y / 16) in
          match b64_value c, b64_value d, rest with
          | Some z, Some w, _ =>
              match decode_quads rest with
              | Some tl =>
                  Some (String b0 (String (byte_of (y * 16 + z / 4))
                                     (String (byte_of (z * 64 + w)) tl)))
              | None => None
              end
          | Some z, None, [] =>
              if Ascii.eqb d pad
              then Some (String b0 (String (byte_of (y * 16 + z / 4)) EmptyString))
              else None
          | None, None, [] =>
              if (Ascii.eqb c pad && Ascii.eqb d pad)%bool
              then Some (String b0 EmptyString) else None
          | _, _, _ => None
          end
      | _, _ => None
      end
  | _ => None
  end.

Fixpoint digits (acc : Z) (s : string) : option Z :=
  match s with
  | EmptyString => Some acc
  | String c rest =>
      let n := Z.of_nat (nat_of_ascii c) in
      if (Z.leb 48 n && Z.leb n 57)%bool then digits (10 * acc + (n - 48)) rest
      else None
  end.

Definition parse_int (s : string) : option Z :=
  match s with
  | EmptyString => None
  | String c rest =>
      if Ascii.eqb c hyphen
      then match rest with
           | EmptyString => None
           | _ => Z.opp <$> digits 0 rest
           end
      else digits 0 s
  end.

Definition show (v : json) : string :=
  match v with
  | JNull => "None"
  | JBool true => "True"
  | JBool false => "False"
  | JInt z => pretty z
  | JStr s => s
  | JList _ => "[...]"
  | JDict _ => "{...}"
  | JFloat (S754_infinity false) => "inf"
  | JFloat (S754_infinity true) => "-inf"
  | JFloat S754_nan => "nan"
  | JFloat _ => "<float>"
  end.

Definition runtime : PyRuntime :=
  {| b64decode := fun s => decode_quads (list_ascii_of_string s);
     int_of_str := parse_int;
     py_str := show |}.

End Reference.

(** ** Configuration, upstream calls and the trace *)

(** The three environment variables read at import time; [None] is an
    unset variable. *)
Record config : Type := {
  OWNER : option string;
  GH_TOKEN : option string;
  SHARED_SECRET : option string;
}.

(** Truthiness of a value of [os.getenv]: set and not empty. *)
Definition env_set (v : option string) : bool :=
  match v with
  | Some s => negb (String.eqb s EmptyString)
  | None => false
  end.

(** [v != e] negated, for a JSON value and a value of [os.getenv]. *)
Definition py_eq_env (v : json) (e : option string) : bool :=
  match v, e with
  | JNull, None => true
  | JStr a, Some b => String.eqb a b
  | _, _ => false
  end.

(** The result payload, which is the callback body and, with [ok], the
    handler's own answer. *)
Record payload : Type := {
  email : json;
  task : json;
  round : Z;
  nonce : json;
  repo_url : string;
  commit_sha : json;
  pages_url : json;
}.

(** The dict [handle] returns. *)
Record answer : Type := {
  ok : bool;
  fields : payload;
}.

(** The bytes of a published file: the four module constants, kept by
    name ([MIT_TEXT] after [format] and all of them after [encode]), or
    the decoded bytes of an attachment. *)
Inductive content : Type :=
| MIT_TEXT (year : Z) (owner : string)
| README_MD
| PAGES_WORKFLOW
| INDEX_HTML
| Decoded (bytes : string).

(** The outgoing HTTP requests, one constructor per call site, with the
    values each one interpolates into its URL or sends as JSON. *)
Inductive call : Type :=
| GetUser
| CreateRepo (name : string)
| PutFile (owner repo path message : string) (c : content)
| GetPages (owner repo : string)
| PostCallback (url : json) (p : payload).

(** What the handler reads from an [httpx] response: [body] is the value
    of [r.json()], [None] when the text is not JSON. *)
Record http_response : Type := {
  status_code : Z;
  text : string;
  body : option json;
}.

(** An awaited request either raises or returns a response. *)
Inductive outcome : Type :=
| Fails (e : pyexc)
| Reply (r : http_response).

Inductive event : Type :=
| EHttp (c : call) (o : outcome)
| ESleep (seconds : Z).

(** The world outside the process: [oracle n c] is what the [n]-th
    outgoing request of the run (counted from 0) gets when it is [c], and
    [tm_year] what [time.gmtime] reports. *)
Record world : Type := {
  oracle : nat -> call -> outcome;
  tm_year : Z;
}.

(** The number of requests in a trace. *)
Fixpoint calls (tr : list event) : nat :=
  match tr with
  | [] => O
  | EHttp _ _ :: rest => S (calls rest)
  | ESleep _ :: rest => calls rest
  end.

(** ** The monad

    A computation reads the world, knows how many requests the run has
    made so far, and gives its result with the events it emitted. *)
Definition M (A : Type) : Type := world -> nat -> result A * list event.

Definition ret {A} (a : A) : M A := fun _ _ => (Ok a, []).

Definition raise {A} (e : exn) : M A := fun _ _ => (Raise e, []).

Definition bind {A B} (m : M A) (f : A -> M B) : M B :=
  fun w n =>
    match m w n with
    | (Ok a, t1) => let '(r, t2) := f a w (n + calls t1)%nat in (r, t1 ++ t2)
    | (Raise e, t1) => (Raise e, t1)
    end.

Notation "'let!' x ':=' m 'in' k" := (bind m (fun x => k))
  (at level 10, x name, m at level 100, k at level 200,
   format "'let!'  x  ':='  m  'in' '//' k").

Definition lift {A} (r : result A) : M A := fun _ _ => (r, []).

(** An awaited [httpx] request, with its exception still in hand. *)
Definition http (c : call) : M outcome :=
  fun w n => (Ok (oracle w n c), [EHttp c (oracle w n c)]).

(** The same where nothing catches the exception. *)
Definition request (c : call) : M http_response :=
  let! o := http c in
  match o with
  | Reply r => ret r
  | Fails e => raise (PyExc e)
  end.

Definition sleep (seconds : Z) : M unit := fun _ _ => (Ok tt, [ESleep seconds]).

Definition gmtime_year : M Z := fun w _ => (Ok (tm_year w), []).

(** [httpx]'s [Response.is_success] and [raise_for_status]. *)
Definition is_success (r : http_response) : bool :=
  (Z.leb 200 (status_code r) && Z.leb (status_code r) 299)%bool.

Definition raise_for_status (r : http_response) : M unit :=
  if is_success r then ret tt else raise (PyExc HTTPStatusError).

(** [r.json()]. *)
Definition json_of (r : http_response) : M json :=
  match body r with
  | Some j => ret j
  | None => raise (PyExc JSONDecodeError)
  end.

(** ** The helpers of [app.py] *)

Section App.

Context `{PyRuntime}.

(** A value interpolated into an f-string or passed to [str.format]. *)
Definition fmt (v : json) : string :=
  match v with
  | JStr s => s
  | _ => py_str v
  end.

(** [int(v)]: [ValueError] for a string that is no integer literal,
    [TypeError] for [None], lists and dicts.  A finite float is truncated
    towards zero; an infinity raises [OverflowError] and a NaN
    [ValueError]. *)
Definition py_int (v : json) : result Z :=
  match v with
  | JInt z => Ok z
  | JBool b => Ok (if b then 1 else 0)
  | JStr s => match int_of_str s with
              | Some z => Ok z
              | None => Raise (PyExc ValueError)
              end
  | JFloat f => match f with
                | S754_zero _ => Ok 0
                | S754_finite negative m e =>
                    let magnitude := Z.shiftl (Z.pos m) e in
                    Ok (if negative then - magnitude else magnitude)
                | S754_infinity _ => Raise (PyExc OverflowError)
                | S754_nan => Raise (PyExc ValueError)
                end
  | _ => Raise (PyExc TypeError)
  end.

(** [v.replace(old, new)]: a method of strings only. *)
Definition py_replace (v : json) (old new : ascii) : result string :=
  match v with
  | JStr s => Ok (str_replace old new s)
  | _ => Raise (PyExc AttributeError)
  end.

Definition _need_env (cfg : config) : M unit :=
  if (negb (env_set (GH_TOKEN cfg)) || negb (env_set (SHARED_SECRET cfg)))%bool
  then raise (HTTPException 500 "Missing GH_TOKEN or SHARED_SECRET")
  else ret tt.

(** [re.match] raises [TypeError] on a value that is not a string; a
    failed match is the function's own [ValueError]; [binascii.Error] is
    a [ValueError] too. *)
Definition _parse_data_uri (uri : json) : result string :=
  match uri with
  | JStr s =>
      match match_data_uri s with
      | None => Raise (PyExc ValueError)
      | Some group =>
          match b64decode group with
          | Some bytes => Ok bytes
          | None => Raise (PyExc ValueError)
          end
      end
  | _ => Raise (PyExc TypeError)
  end.

Definition _gh_owner (cfg : config) : M json :=
  if env_set (OWNER cfg) then ret (JStr (default EmptyString (OWNER cfg)))
  else
    let! r := request GetUser in
    let! _ := raise_for_status r in
    let! j := json_of r in
    lift (py_getitem j "login").

(** The test on the reply of the create call: status 201, or the word
    [exists] somewhere in the lower-cased text. *)
Definition create_accepted (r : http_response) : bool :=
  (Z.eqb (status_code r) 201 || str_contains "exists" (str_lower (text r)))%bool.

Definition _gh_create_repo (owner : json) (repo : string) : M unit :=
  let! r := request (CreateRepo repo) in
  if (negb (Z.eqb (status_code r) 201)
      && negb (str_contains "exists" (str_lower (text r))))%bool
  then raise (HTTPException 500 ("Create repo failed: " +:+ text r))
  else ret tt.

Definition _gh_put_file (owner : json) (repo : string) (path : json)
    (c : content) (message : string) : M json :=
  let! r := request (PutFile (fmt owner) repo (fmt path) message c) in
  let! _ := raise_for_status r in
  let! j := json_of r in
  let! commit := lift (py_getitem j "commit") in
  lift (py_getitem commit "sha").

Definition _gh_pages_url (owner : json) (repo : string) : M json :=
  let! r := request (GetPages (fmt owner) repo) in
  if Z.eqb (status_code r) 200
  then let! j := json_of r in lift (py_get_method j "html_url")
  else ret JNull.

(** One attempt of [_post_with_backoff] succeeded: it returned a response
    and the status is 200. *)
Definition delivered (o : outcome) : bool :=
  match o with
  | Reply r => Z.eqb (status_code r) 200
  | Fails _ => false
  end.

(** The [for _ in range(n)] loop of [_post_with_backoff], entered with
    the current [delay]. *)
Fixpoint post_attempts (n : nat) (delay : Z) (url : json) (p : payload) : M bool :=
  match n with
  | O => ret false
  | S n' =>
      let! o := http (PostCallback url p) in
      if delivered o then ret true
      else
        let! _ := sleep delay in
        post_attempts n' (delay * 2) url p
  end.

Definition _post_with_backoff (url : json) (p : payload) : M bool :=
  post_attempts 6 1 url p.

(** ** The handler *)

(** The four entries [files] starts with. *)
Definition fixed_files (year : Z) (owner : json) : list (json * content) :=
  [ (JStr "LICENSE", MIT_TEXT year (fmt owner));
    (JStr "README.md", README_MD);
    (JStr ".github/workflows/pages.yml", PAGES_WORKFLOW);
    (JStr "index.html", INDEX_HTML) ].

(** The tuple one attachment contributes: [att["name"]] is evaluated
    first, then [att["url"]] and its decoding. *)
Definition attachment_file (att : json) : result (json * content) :=
  match py_getitem att "name" with
  | Raise e => Raise e
  | Ok name =>
      match py_getitem att "url" with
      | Raise e => Raise e
      | Ok url =>
          match _parse_data_uri url with
          | Raise e => Raise e
          | Ok bytes => Ok (name, Decoded bytes)
          end
      end
  end.

(** The [for att in attachments] loop: [files.append] under
    [try ... except Exception: pass]. *)
Fixpoint append_attachments (files : list (json * content)) (atts : list json)
    : list (json * content) :=
  match atts with
  | [] => files
  | att :: rest =>
      match attachment_file att with
      | Ok f => append_attachments (files ++ [f]) rest
      | Raise _ => append_attachments files rest
      end
  end.

(** The [for p, c in files] loop, entered with the current
    [last_commit]. *)
Fixpoint put_files (owner : json) (repo : string) (files : list (json * content))
    (last_commit : json) : M json :=
  match files with
  | [] => ret last_commit
  | (p, c) :: rest =>
      let! last_commit := _gh_put_file owner repo p c ("add " +:+ fmt p) in
      put_files owner repo rest last_commit
  end.

(** The [for _ in range(n)] polling loop, entered with the current
    [pages_url]. *)
Fixpoint poll_pages (n : nat) (pages_url : json) (owner : json) (repo : string)
    : M json :=
  match n with
  | O => ret pages_url
  | S n' =>
      let! pages_url := _gh_pages_url owner repo in
      if truthy pages_url then ret pages_url
      else
        let! _ := sleep 5 in
        poll_pages n' pages_url owner repo
  end.

(** [pages_url or f"https://{owner}.github.io/{repo}/"]. *)
Definition pages_url_or_default (pages_url owner : json) (repo : string) : json :=
  if truthy pages_url then pages_url
  else JStr ("https://" +:+ fmt owner +:+ ".github.io/" +:+ repo +:+ "/").

(** [handle], on the parsed body of the request, a JSON object. *)
Definition handle (cfg : config) (data : gmap string json) : M answer :=
  let! _ := _need_env cfg in
  if negb (py_eq_env (dict_get data "secret") (SHARED_SECRET cfg))
  then raise (HTTPException 403 "Invalid secret")
  else
    let email := dict_get data "email" in
    let task := dict_get data "task" in
    let nonce := dict_get data "nonce" in
    let evaluation_url := dict_get data "evaluation_url" in
    let! round_idx := lift (py_int (dict_get_default data "round" (JInt 1))) in
    let attachments := dict_get_default data "attachments" (JList []) in
    if negb (forallb truthy [email; task; nonce; evaluation_url])
    then raise (HTTPException 400 "Missing required fields")
    else
      let! owner := _gh_owner cfg in
      let! repo := lift (py_replace task slash hyphen) in
      let! _ := _gh_create_repo owner repo in
      let! year := gmtime_year in
      let files := fixed_files year owner in
      let! atts := lift (py_iter attachments) in
      let files := append_attachments files atts in
      let! last_commit := put_files owner repo files (JStr EmptyString) in
      let! pages_url := poll_pages 12 JNull owner repo in
      let payload :=
        {| email := email;
           task := task;
           round := round_idx;
           nonce := nonce;
           repo_url := "https://github.com/" +:+ fmt owner +:+ "/" +:+ repo;
           commit_sha := last_commit;
           pages_url := pages_url_or_default pages_url owner repo |} in
      let! _ := _post_with_backoff evaluation_url payload in
      ret {| ok := true; fields := payload |}.

End App.

(** The status of the response the framework sends for a result of
    [handle]: 200 with the returned dict, the status of an
    [HTTPException], 500 for any other exception. *)
Definition response_status {A} (r : result A) : Z :=
  match r with
  | Ok _ => 200
  | Raise (HTTPException code _) => code
  | Raise (PyExc _) => 500
  end.

(** ** A concrete world to run the handler in *)

Module Demo.

Definition cfg : config :=
  {| OWNER := Some "octo"; GH_TOKEN := Some "t0ken"; SHARED_SECRET := Some "s3cret" |}.

Definition reply (code : Z) (txt : string) (j : option json) : outcome :=
  Reply {| status_code := code; text := txt; body := j |}.

Definition sha (s : string) : json :=
  JDict {[ "commit" := JDict {[ "sha" := JStr s ]} ]}.

(** Every write succeeds, the pages are never there, the callback
    endpoint always answers 500. *)
Definition quiet (n : nat) (c : call) : outcome :=
  match c with
  | GetUser => reply 200 "{}" (Some (JDict {[ "login" := JStr "octo" ]}))
  | CreateRepo _ => reply 201 "created" None
  | PutFile _ _ path _ _ => reply 201 "ok" (Some (sha ("sha-" +:+ path)))
  | GetPages _ _ => reply 404 "Not Found" None
  | PostCallback _ _ => reply 500 "down" None
  end.

Definition w_quiet : world := {| oracle := quiet; tm_year := 2025 |}.

Definition x_txt_fields : gmap string json :=
  {[ "name" := JStr "x.txt"; "url" := JStr "not-a-data-uri" ]}.

Definition x_txt : json := JDict x_txt_fields.

Definition hi_txt : json :=
  JDict {[ "name" := JStr "hi.txt"; "url" := JStr "data:text/plain;base64,aGk=" ]}.

Definition atts : list json := [x_txt; hi_txt].

(** A data URI whose media type has a parameter, and an attachment with
    it. *)
Definition charset_uri : string := "data:text/plain;charset=utf-8;base64,aGk=".

Definition charset_txt : json :=
  JDict {[ "name" := JStr "hi.txt"; "url" := JStr charset_uri ]}.

Definition data : gmap string json :=
  {[ "secret" := JStr "s3cret";
     "email" := JStr "a@b.c";
     "task" := JStr "a/b";
     "nonce" := JStr "n-1";
     "evaluation_url" := JStr "https://eval.example/cb";
     "attachments" := JList atts ]}.

(** As [quiet], but the repository is there already. *)
Definition again (n : nat) (c : call) : outcome :=
  match c with
  | CreateRepo _ => reply 422 "Repository creation failed: name already EXISTS" None
  | _ => quiet n c
  end.



(** The write of a file as [quiet] answers it, and the trace of a run on
    [data] up to its polls, in the worlds that answer the create call
    and the writes as [quiet] does. *)
Definition put (path : string) (c : content) : event :=
  EHttp (PutFile "octo" "a-b" path ("add " +:+ path) c)
        (reply 201 "ok" (Some (sha ("sha-" +:+ path)))).

Definition pre : list event :=
  [ EHttp (CreateRepo "a-b") (reply 201 "created" None);
    put "LICENSE" (MIT_TEXT 2025 "octo");
    put "README.md" README_MD;
    put ".github/workflows/pages.yml" PAGES_WORKFLOW;
    put "index.html" INDEX_HTML;
    put "hi.txt" (Decoded "hi") ].

(** What the pages endpoint says while the site has no address yet: a
    200 whose [html_url] is empty. *)
Definition blank_reply : outcome :=
  reply 200 "{}" (Some (JDict {[ "html_url" := JStr EmptyString ]})).

(** As [quiet], but every poll gets that reply. *)
Definition blank (n : nat) (c : call) : outcome :=
  match c with
  | GetPages _ _ => blank_reply
  | _ => quiet n c
  end.

Definition w_blank : world := {| oracle := blank; tm_year := 2025 |}.

(** A refusal of the create call that is no "already exists" response,
    although the word occurs in it. *)
Definition gone_reply : http_response :=
  {| status_code := 403;
     text := "Forbidden: the organization no longer exists";
     body := None |}.

(** As [quiet], but the create call is refused in that way. *)
Definition gone (n : nat) (c : call) : outcome :=
  match c with
  | CreateRepo _ => Reply gone_reply
  | _ => quiet n c
  end.

Definition w_gone : world := {| oracle := gone; tm_year := 2025 |}.

(** As [quiet], but the write of the readme is refused. *)
Definition broken (n : nat) (c : call) : outcome :=
  match c with
  | PutFile _ _ "README.md" _ _ => reply 500 "Internal Server Error" None
  | _ => quiet n c
  end.

Definition w_broken : world := {| oracle := broken; tm_year := 2025 |}.

Definition w_again : world := {| oracle := again; tm_year := 2025 |}.

Definition p0 : payload :=
  {| email := JStr "a@b.c"; task := JStr "a/b"; round := 1; nonce := JStr "n-1";
     repo_url := "https://github.com/octo/a-b"; commit_sha := JStr "sha-hi.txt";
     pages_url := JStr "https://octo.github.io/a-b/" |}.

Definition cb : json := JStr "https://eval.example/cb".

(** The first five requests of the run fail, by status or by exception;
    the later ones get a 200. *)
Definition flaky (n : nat) (c : call) : outcome :=
  if Nat.ltb n 3 then reply 503 "busy" None
  else if Nat.ltb n 5 then Fails TransportError
  else reply 200 "ok" None.

Definition w_flaky : world := {| oracle := flaky; tm_year := 2025 |}.

(** The server without an owner override, and without its token. *)
Definition cfg_lookup : config :=
  {| OWNER := None; GH_TOKEN := Some "t0ken"; SHARED_SECRET := Some "s3cret" |}.

Definition cfg_no_token : config :=
  {| OWNER := Some "octo"; GH_TOKEN := None; SHARED_SECRET := Some "s3cret" |}.

(** As [quiet], but the platform does not know the token. *)
Definition stranger (n : nat) (c : call) : outcome :=
  match c with
  | GetUser => reply 401 "Bad credentials" None
  | _ => quiet n c
  end.

Definition w_stranger : world := {| oracle := stranger; tm_year := 2025 |}.

(** As [quiet], but the third poll does not come back. *)
Definition cut (n : nat) (c : call) : outcome :=
  match c with
  | GetPages _ _ => if Nat.eqb n 8 then Fails TransportError else quiet n c
  | _ => quiet n c
  end.

Definition w_cut : world := {| oracle := cut; tm_year := 2025 |}.

(** A complete request whose task is a number, and one whose attachments
    are [null]. *)
Definition numeric_task : gmap string json := <[ "task" := JInt 7 ]> data.

Definition null_attachments : gmap string json := <[ "attachments" := JNull ]> data.

(** A wrong secret, and nothing else. *)
Definition intruder : gmap string json := {[ "secret" := JStr "guess" ]}.

(** The right secret, no [email], and a round that is no number. *)
Definition no_email_bad_round : gmap string json :=
  {[ "secret" := JStr "s3cret";
     "task" := JStr "a/b";
     "nonce" := JStr "n-1";
     "evaluation_url" := JStr "https://eval.example/cb";
     "round" := JStr "abc" ]}.

(** The same with [null] for the round. *)
Definition no_email_null_round : gmap string json :=
  <[ "round" := JNull ]> no_email_bad_round.

(** The same with a round that [json.loads] reads as an infinite float,
    such as [1e999]. *)
Definition no_email_inf_round : gmap string json :=
  <[ "round" := JFloat (S754_infinity false) ]> no_email_bad_round.

(** A complete request but for an empty [nonce]. *)
Definition empty_nonce : gmap string json := <[ "nonce" := JStr EmptyString ]> data.

(** The right secret, no [email], round 2. *)
Definition no_email : gmap string json :=
  <[ "round" := JInt 2 ]> no_email_bad_round.

End Demo.

(** ** Observations on a trace *)

(** The durations of the [time.sleep] calls, in order. *)
Fixpoint sleeps (tr : list event) : list Z :=
  match tr with
  | [] => []
  | ESleep d :: rest => d :: sleeps rest
  | EHttp _ _ :: rest => sleeps rest
  end.

(** The total time slept. *)
Definition slept (tr : list event) : Z := fold_right Z.add 0 (sleeps tr).

(** The outcomes of the requests, in order. *)
Fixpoint outcomes (tr : list event) : list outcome :=
  match tr with
  | [] => []
  | EHttp _ o :: rest => o :: outcomes rest
  | ESleep _ :: rest => outcomes rest
  end.

(** The delays [d, 2d, 4d, ...] of [n] failed attempts. *)
Fixpoint backoff_delays (n : nat) (d : Z) : list Z :=
  match n with
  | O => []
  | S n' => d :: backoff_delays n' (d * 2)
  end.

Inductive kind : Type := KUser | KCreate | KPut | KPages | KCallback | KSleep.

Definition kind_of (e : event) : kind :=
  match e with
  | EHttp GetUser _ => KUser
  | EHttp (CreateRepo _) _ => KCreate
  | EHttp (PutFile _ _ _ _ _) _ => KPut
  | EHttp (GetPages _ _) _ => KPages
  | EHttp (PostCallback _ _) _ => KCallback
  | ESleep _ => KSleep
  end.

(** What each helper makes of the outcome of its one request. *)
Definition login_result (o : outcome) : result json :=
  match o with
  | Fails e => Raise (PyExc e)
  | Reply r =>
      if is_success r
      then match body r with
           | Some j => py_getitem j "login"
           | None => Raise (PyExc JSONDecodeError)
           end
      else Raise (PyExc HTTPStatusError)
  end.

Definition create_result (o : outcome) : result unit :=
  match o with
  | Fails e => Raise (PyExc e)
  | Reply r =>
      if create_accepted r then Ok tt
      else Raise (HTTPException 500 ("Create repo failed: " +:+ text r))
  end.

Definition write_result (o : outcome) : result json :=
  match o with
  | Fails e => Raise (PyExc e)
  | Reply r =>
      if is_success r
      then match body r with
           | Some j =>
               match py_getitem j "commit" with
               | Ok commit => py_getitem commit "sha"
               | Raise e => Raise e
               end
           | None => Raise (PyExc JSONDecodeError)
           end
      else Raise (PyExc HTTPStatusError)
  end.

Definition pages_result (o : outcome) : result json :=
  match o with
  | Fails e => Raise (PyExc e)
  | Reply r =>
      if Z.eqb (status_code r) 200
      then match body r with
           | Some j => py_get_method j "html_url"
           | None => Raise (PyExc JSONDecodeError)
           end
      else Ok JNull
  end.

(** The commit identifier of the most recent successful write of a
    trace, [acc] when there is none. *)
Fixpoint last_written (tr : list event) (acc : json) : json :=
  match tr with
  | [] => acc
  | EHttp (PutFile _ _ _ _ _) o :: rest =>
      last_written rest (match write_result o with Ok sha => sha | Raise _ => acc end)
  | _ :: rest => last_written rest acc
  end.

(** The files written, path and bytes, in order. *)
Fixpoint written (tr : list event) : list (string * content) :=
  match tr with
  | [] => []
  | EHttp (PutFile _ _ path _ c) _ :: rest => (path, c) :: written rest
  | _ :: rest => written rest
  end.

(** [c in s] for one character. *)
Fixpoint has_char (c : ascii) (s : string) : bool :=
  match s with
  | EmptyString => false
  | String a rest => (Ascii.eqb a c || has_char c rest)%bool
  end.

(** A write that returned its commit identifier. *)
Definition write_ok (o : outcome) : Prop := exists sha, write_result o = Ok sha.




(** A trace without its create calls. *)
Fixpoint without_create (tr : list event) : list event :=
  match tr with
  | [] => []
  | EHttp (CreateRepo _) _ :: rest => without_create rest
  | e :: rest => e :: without_create rest
  end.

Section Decoded.

Context `{PyRuntime}.

(** A base64 data URI in the words of the specification's glossary: the
    text [data:], a media type, the text [;base64,] and a payload, which
    is base64. *)
Definition base64_data_uri (u : string) : Prop :=
  exists mediatype payload bytes,
    u = "data:" +:+ mediatype +:+ ";base64," +:+ payload /\
    b64decode payload = Some bytes.

(** The data URIs that [_parse_data_uri] takes, with the bytes it
    returns: of those, the ones whose media type is not empty and holds
    no semicolon (no parameter, then) and whose payload holds no newline,
    one newline being allowed after it. *)
Definition plain_data_uri (u bytes : string) : Prop :=
  exists mediatype payload tail,
    u = "data:" +:+ mediatype +:+ ";base64," +:+ payload +:+ tail /\
    mediatype <> EmptyString /\
    has_char semicolon mediatype = false /\
    has_char LF payload = false /\
    (tail = EmptyString \/ tail = String LF EmptyString) /\
    b64decode payload = Some bytes.

(** The attachments that decode, as the tuples they contribute. *)
Definition decoded_attachments (atts : list json) : list (json * content) :=
  omap (fun att => match attachment_file att with
                   | Ok f => Some f
                   | Raise _ => None
                   end) atts.

(** A file as its write shows in the trace. *)
Definition as_written (f : json * content) : string * content := (fmt f.1, f.2).

End Decoded.

(** An event that fits a run for [owner] and [repo]: a create call for
    that repository, a write into it with the message made of the path, a
    poll of its pages, a delivery to the request's callback of a payload
    that names it. *)
Definition addressed_to (data : gmap string json) (owner repo : string)
    (e : event) : Prop :=
  match e with
  | EHttp GetUser _ => True
  | EHttp (CreateRepo name) _ => name = repo
  | EHttp (PutFile o r path message _) _ =>
      o = owner /\ r = repo /\ message = "add " +:+ path
  | EHttp (GetPages o r) _ => o = owner /\ r = repo
  | EHttp (PostCallback url p) _ =>
      url = dict_get data "evaluation_url" /\
      repo_url p = "https://github.com/" +:+ owner +:+ "/" +:+ repo
  | ESleep _ => True
  end.

(** ** The exits of the handler

    Every run of [handle] leaves it at one of eleven points: one of the
    four checks on the configuration and the request, an exception of one
    of the six stages that follow, or the [return] after the callback
    delivery.  [handle_run] lists them, each with the result and the
    trace of a run that leaves there. *)

Section Runs.

Context `{PyRuntime}.
Variables (cfg : config) (data : gmap string json) (w : world).

(** Both variables that [_need_env] asks for are set. *)
Definition configured : Prop :=
  env_set (GH_TOKEN cfg) = true /\ env_set (SHARED_SECRET cfg) = true.

Definition secret_matches : bool :=
  py_eq_env (dict_get data "secret") (SHARED_SECRET cfg).

Definition round_of : result Z :=
  py_int (dict_get_default data "round" (JInt 1)).

Definition required_present : bool :=
  forallb truthy [dict_get data "email"; dict_get data "task";
                  dict_get data "nonce"; dict_get data "evaluation_url"].

(** The request passed the four checks, with [z] as its round. *)
Definition accepted (z : Z) : Prop :=
  configured /\ secret_matches = true /\ round_of = Ok z /\ required_present = true.

(** The owner is known and the repository named. *)
Definition resolved (owner : json) (t1 : list event) (repo : string) : Prop :=
  _gh_owner cfg w 0%nat = (Ok owner, t1) /\
  py_replace (dict_get data "task") slash hyphen = Ok repo.

Definition create_event (k : nat) (repo : string) : event :=
  EHttp (CreateRepo repo) (oracle w k (CreateRepo repo)).

(** The create call went through and the attachments are a sequence. *)
Definition created (t1 : list event) (repo : string) (atts : list json) : Prop :=
  create_result (oracle w (calls t1) (CreateRepo repo)) = Ok tt /\
  py_iter (dict_get_default data "attachments" (JList [])) = Ok atts.

Definition result_payload (z : Z) (owner : json) (repo : string)
    (last_commit found : json) : payload :=
  {| email := dict_get data "email";
     task := dict_get data "task";
     round := z;
     nonce := dict_get data "nonce";
     repo_url := "https://github.com/" +:+ fmt owner +:+ "/" +:+ repo;
     commit_sha := last_commit;
     pages_url := pages_url_or_default found owner repo |}.

(** The run got as far as the polling loop: the request passed the
    checks, the owner is known, the create call went through and every
    file is written, [last_commit] being the identifier of the last write
    and [pre] the trace up to there. *)
Definition published (z : Z) (owner : json) (repo : string) (last_commit : json)
    (pre : list event) : Prop :=
  exists t1 atts t3,
    accepted z /\ resolved owner t1 repo /\ created t1 repo atts /\
    put_files owner repo (append_attachments (fixed_files (tm_year w) owner) atts)
      (JStr EmptyString) w (S (calls t1)) = (Ok last_commit, t3) /\
    pre = t1 ++ create_event (calls t1) repo :: t3.

Inductive handle_run : result answer -> list event -> Prop :=
| exit_unconfigured :
    (env_set (GH_TOKEN cfg) && env_set (SHARED_SECRET cfg))%bool = false ->
    handle_run (Raise (HTTPException 500 "Missing GH_TOKEN or SHARED_SECRET")) []
| exit_forbidden :
    configured -> secret_matches = false ->
    handle_run (Raise (HTTPException 403 "Invalid secret")) []
| exit_round e :
    configured -> secret_matches = true -> round_of = Raise e ->
    handle_run (Raise e) []
| exit_missing z :
    configured -> secret_matches = true -> round_of = Ok z ->
    required_present = false ->
    handle_run (Raise (HTTPException 400 "Missing required fields")) []
| exit_owner z e t1 :
    accepted z ->
    _gh_owner cfg w 0%nat = (Raise e, t1) ->
    handle_run (Raise e) t1
| exit_task z owner t1 e :
    accepted z ->
    _gh_owner cfg w 0%nat = (Ok owner, t1) ->
    py_replace (dict_get data "task") slash hyphen = Raise e ->
    handle_run (Raise e) t1
| exit_create z owner t1 repo e :
    accepted z -> resolved owner t1 repo ->
    create_result (oracle w (calls t1) (CreateRepo repo)) = Raise e ->
    handle_run (Raise e) (t1 ++ [create_event (calls t1) repo])
| exit_iter z owner t1 repo e :
    accepted z -> resolved owner t1 repo ->
    create_result (oracle w (calls t1) (CreateRepo repo)) = Ok tt ->
    py_iter (dict_get_default data "attachments" (JList [])) = Raise e ->
    handle_run (Raise e) (t1 ++ [create_event (calls t1) repo])
| exit_put z owner t1 repo atts e t3 :
    accepted z -> resolved owner t1 repo -> created t1 repo atts ->
    put_files owner repo (append_attachments (fixed_files (tm_year w) owner) atts)
      (JStr EmptyString) w (S (calls t1)) = (Raise e, t3) ->
    handle_run (Raise e) (t1 ++ create_event (calls t1) repo :: t3)
| exit_poll z owner t1 repo atts last_commit t3 e t4 :
    accepted z -> resolved owner t1 repo -> created t1 repo atts ->
    put_files owner repo (append_attachments (fixed_files (tm_year w) owner) atts)
      (JStr EmptyString) w (S (calls t1)) = (Ok last_commit, t3) ->
    poll_pages 12 JNull owner repo w (S (calls t1) + calls t3)%nat = (Raise e, t4) ->
    handle_run (Raise e) (t1 ++ create_event (calls t1) repo :: t3 ++ t4)
| exit_return z owner t1 repo atts last_commit t3 found t4 :
    accepted z -> resolved owner t1 repo -> created t1 repo atts ->
    put_files owner repo (append_attachments (fixed_files (tm_year w) owner) atts)
      (JStr EmptyString) w (S (calls t1)) = (Ok last_commit, t3) ->
    poll_pages 12 JNull owner repo w (S (calls t1) + calls t3)%nat = (Ok found, t4) ->
    handle_run
      (Ok {| ok := true; fields := result_payload z owner repo last_commit found |})
      (t1 ++ create_event (calls t1) repo :: t3 ++ t4 ++
       snd (_post_with_backoff (dict_get data "evaluation_url")
              (result_payload z owner repo last_commit found) w
              (S (calls t1) + calls t3 + calls t4)%nat)).

End Runs.

(** * Properties *)

Lemma calls_app (t1 t2 : list event) : calls (t1 ++ t2) = (calls t1 + calls t2)%nat.
Proof.
  induction t1 as [|[c o|d] t1 IH]; simpl; auto.
Qed.

Lemma sleeps_app (t1 t2 : list event) : sleeps (t1 ++ t2) = sleeps t1 ++ sleeps t2.
Proof.
  induction t1 as [|[c o|d] t1 IH]; simpl; auto. now rewrite IH.
Qed.

(** ** Facts about strings *)

Lemma append_cons (c : ascii) (s t : string) : String c s +:+ t = String c (s +:+ t).
Proof. reflexivity. Qed.

Lemma append_empty_l (t : string) : EmptyString +:+ t = t.
Proof. reflexivity. Qed.

Lemma append_empty_r (s : string) : s +:+ EmptyString = s.
Proof.
  induction s as [|c s IH]; [reflexivity|]. now rewrite append_cons, IH.
Qed.

Lemma strip_prefix_spec (p s r : string) :
  strip_prefix p s = Some r <-> s = p +:+ r.
Proof.
  revert s. induction p as [|a p IH]; intros s; simpl.
  - rewrite append_empty_l. split; [now intros [= ->]|now intros ->].
  - rewrite append_cons. destruct s as [|b s].
    + split; discriminate.
    + destruct (Ascii.eqb a b) eqn:E.
      * apply Ascii.eqb_eq in E as ->. rewrite IH.
        split; [now intros ->|now intros [= ->]].
      * apply Ascii.eqb_neq in E. split; [discriminate|].
        intros [= -> _]. now destruct E.
Qed.

Lemma split_first_Some (c : ascii) (s a b : string) :
  split_first c s = Some (a, b) <->
  s = a +:+ String c b /\ has_char c a = false.
Proof.
  revert a b. induction s as [|x s IH]; intros a b; simpl.
  - split; [discriminate|]. intros [Heq _]. destruct a; discriminate.
  - destruct (Ascii.eqb x c) eqn:E.
    + apply Ascii.eqb_eq in E as ->. split.
      * intros [= <- <-]. auto.
      * intros [Heq Hno]. destruct a as [|y a].
        -- rewrite append_empty_l in Heq. now injection Heq as ->.
        -- rewrite append_cons in Heq. injection Heq as <- _.
           simpl in Hno. now rewrite Ascii.eqb_refl in Hno.
    + split.
      * destruct (split_first c s) as [[a' b']|] eqn:Es; [|discriminate].
        intros [= <- <-]. destruct (proj1 (IH a' b') eq_refl) as [-> Hno].
        simpl. rewrite E, Hno. auto.
      * intros [Heq Hno']. destruct a as [|y a].
        -- rewrite append_empty_l in Heq. injection Heq as -> _.
           now rewrite Ascii.eqb_refl in E.
        -- rewrite append_cons in Heq. injection Heq as <- Heq.
           simpl in Hno'. rewrite E in Hno'. simpl in Hno'.
           now rewrite (proj2 (IH a b) (conj Heq Hno')).
Qed.

Lemma split_first_None (c : ascii) (s : string) :
  split_first c s = None <-> has_char c s = false.
Proof.
  induction s as [|x s IH]; simpl; [tauto|].
  destruct (Ascii.eqb x c); simpl.
  - split; discriminate.
  - rewrite <- IH. destruct (split_first c s) as [[a b]|]; split; auto; discriminate.
Qed.


Lemma has_char_append (c : ascii) (a b : string) :
  has_char c (a +:+ b) = (has_char c a || has_char c b)%bool.
Proof.
  induction a as [|x a IH]; [reflexivity|].
  rewrite append_cons. simpl. rewrite IH. now rewrite orb_assoc.
Qed.

Lemma prefix_spec (p s : string) :
  String.prefix p s = true <-> exists b, s = p +:+ b.
Proof.
  revert s. induction p as [|x p IH]; intros s.
  - split; [intros _; now exists s|]. intros _. now destruct s.
  - destruct s as [|y s]; simpl.
    + split; [discriminate|]. intros [b Hb]. discriminate.
    + destruct (ascii_dec x y) as [<-|Hne].
      * rewrite IH. split; intros [b Hb]; exists b.
        -- now rewrite append_cons, Hb.
        -- rewrite append_cons in Hb. now injection Hb.
      * split; [discriminate|]. intros [b Hb].
        rewrite append_cons in Hb. injection Hb as <- _. now destruct Hne.
Qed.

Lemma str_contains_spec (needle s : string) :
  str_contains needle s = true <-> exists a b, s = a +:+ needle +:+ b.
Proof.
  induction s as [|c s IH]; cbn [str_contains].
  - destruct (String.prefix needle EmptyString) eqn:E.
    + split; [intros _|reflexivity].
      apply prefix_spec in E as [b Hb]. now exists EmptyString, b.
    + split; [discriminate|]. intros (a & b & Hab).
      destruct a; [|discriminate]. rewrite append_empty_l in Hab.
      assert (String.prefix needle EmptyString = true) as Hp
        by (apply prefix_spec; eauto).
      congruence.
  - destruct (String.prefix needle (String c s)) eqn:E.
    + split; [intros _|reflexivity].
      apply prefix_spec in E as [b Hb]. now exists EmptyString, b.
    + rewrite IH. split.
      * intros (a & b & ->). now exists (String c a), b.
      * intros (a & b & Hab). destruct a as [|x a].
        -- rewrite append_empty_l in Hab.
           assert (String.prefix needle (String c s) = true) as Hp
             by (apply prefix_spec; eauto).
           congruence.
        -- rewrite append_cons in Hab. injection Hab as _ ->. eauto.
Qed.

(** What the pattern of [_parse_data_uri] matches, and its group. *)
Lemma match_data_uri_iff (uri group : string) :
  match_data_uri uri = Some group <->
  exists mediatype tail,
    uri = "data:" +:+ mediatype +:+ ";base64," +:+ group +:+ tail /\
    mediatype <> EmptyString /\
    has_char semicolon mediatype = false /\
    has_char LF group = false /\
    (tail = EmptyString \/ tail = String LF EmptyString).
Proof.
  unfold match_data_uri. split.
  - destruct (strip_prefix "data:" uri) as [r1|] eqn:E1; [|discriminate].
    apply strip_prefix_spec in E1.
    destruct (split_first semicolon r1) as [[mt r2]|] eqn:E2; [|discriminate].
    apply split_first_Some in E2 as [-> Hmt].
    destruct (String.eqb mt EmptyString) eqn:E3; [discriminate|].
    apply String.eqb_neq in E3.
    destruct (strip_prefix "base64," r2) as [r3|] eqn:E4; [|discriminate].
    apply strip_prefix_spec in E4 as ->.
    destruct (split_first LF r3) as [[g after]|] eqn:E5.
    + apply split_first_Some in E5 as [-> Hg].
      destruct (String.eqb after EmptyString) eqn:E6; [|discriminate].
      apply String.eqb_eq in E6 as ->. intros [= <-].
      exists mt, (String LF EmptyString). subst uri. repeat split; auto.
    + apply split_first_None in E5. intros [= <-].
      exists mt, EmptyString. subst uri. rewrite append_empty_r. repeat split; auto.
  - intros (mt & tail & -> & Hne & Hmt & Hg & Htail).
    rewrite (proj2 (strip_prefix_spec "data:" _ _) eq_refl).
    change (";base64," +:+ group +:+ tail)
      with (String semicolon ("base64," +:+ group +:+ tail)).
    rewrite (proj2 (split_first_Some semicolon _ mt ("base64," +:+ group +:+ tail))
               (conj eq_refl Hmt)).
    apply String.eqb_neq in Hne. rewrite Hne.
    rewrite (proj2 (strip_prefix_spec "base64," _ _) eq_refl).
    destruct Htail as [-> | ->].
    + rewrite append_empty_r, (proj2 (split_first_None LF group) Hg). reflexivity.
    + rewrite (proj2 (split_first_Some LF _ group EmptyString) (conj eq_refl Hg)).
      reflexivity.
Qed.

(** ** Callback delivery *)

Section Backoff.

Context `{PyRuntime}.
Variables (url : json) (p : payload) (w : world).

Let post := PostCallback url p.

(** One turn of the loop: a delivered attempt returns at once, a failed
    one sleeps and goes on with the doubled delay. *)
Lemma post_attempts_S (n : nat) (d : Z) (k : nat) :
  post_attempts (S n) d url p w k =
    if delivered (oracle w k post)
    then (Ok true, [EHttp post (oracle w k post)])
    else (fst (post_attempts n (d * 2) url p w (S k)),
          EHttp post (oracle w k post) :: ESleep d
            :: snd (post_attempts n (d * 2) url p w (S k))).
Proof.
  subst post. simpl. unfold bind, http. simpl.
  destruct (delivered _); [reflexivity|].
  simpl. replace (k + 1 + 0)%nat with (S k) by lia.
  destruct (post_attempts n (d * 2) url p w (S k)) as [[b|e] tr]; reflexivity.
Qed.

(** The shape of every run of the loop: [m] failed attempts, each followed
    by its sleep, and then either the delivered attempt or, with all [n]
    attempts failed, the end of the loop. *)
Lemma post_attempts_shape (n : nat) (d : Z) (k : nat) :
  exists m : nat,
    (m <= n)%nat /\
    sleeps (snd (post_attempts n d url p w k)) = backoff_delays m d /\
    (forall i, (i < m)%nat -> delivered (oracle w (k + i) post) = false) /\
    ((fst (post_attempts n d url p w k) = Ok true /\
      calls (snd (post_attempts n d url p w k)) = S m /\ (m < n)%nat /\
      delivered (oracle w (k + m) post) = true) \/
     (fst (post_attempts n d url p w k) = Ok false /\
      calls (snd (post_attempts n d url p w k)) = n /\ m = n)).
Proof.
  revert d k. induction n as [|n IH]; intros d k.
  - exists O. simpl. repeat split; try lia. right. auto.
  - rewrite post_attempts_S.
    destruct (delivered (oracle w k post)) eqn:E.
    + exists O. simpl. repeat split; try lia.
      left. rewrite Nat.add_0_r. repeat split; auto. lia.
    + destruct (IH (d * 2) (S k)) as (m & Hm & Hs & Hf & Hr).
      exists (S m). simpl. rewrite Hs. repeat split; try lia.
      * intros [|i] Hi.
        -- now rewrite Nat.add_0_r.
        -- replace (k + S i)%nat with (S k + i)%nat by lia. apply Hf. lia.
      * replace (k + S m)%nat with (S k + m)%nat by lia.
        destruct Hr as [(Hr & Hc & Hlt & Hd)|(Hr & Hc & Hmn)]; [left|right];
          repeat split; auto; lia.
Qed.

(** Every event of the loop is a POST of the payload to the URL or a
    sleep. *)
Lemma post_attempts_events (n : nat) (d : Z) (k : nat) (e : event) :
  In e (snd (post_attempts n d url p w k)) ->
  (exists o, e = EHttp post o) \/ (exists s, e = ESleep s).
Proof.
  revert d k. induction n as [|n IH]; intros d k.
  - simpl. tauto.
  - rewrite post_attempts_S. destruct (delivered _); simpl.
    + intros [<-|[]]. left. eauto.
    + intros [<-|[<-|Hin]]; eauto.
Qed.

(** The loop returns [True] exactly when one of its requests got a
    response with status 200. *)
Lemma post_attempts_true_iff (n : nat) (d : Z) (k : nat) :
  fst (post_attempts n d url p w k) = Ok true <->
  exists r, In (EHttp post (Reply r)) (snd (post_attempts n d url p w k))
            /\ status_code r = 200.
Proof.
  revert d k. induction n as [|n IH]; intros d k.
  - simpl. split; [discriminate|]. intros (r & [] & _).
  - rewrite post_attempts_S.
    destruct (delivered (oracle w k post)) eqn:E; simpl.
    + split; [intros _|reflexivity].
      unfold delivered in E. destruct (oracle w k post) as [e|r]; [discriminate|].
      exists r. split; [now left|]. now apply Z.eqb_eq.
    + rewrite IH. split.
      * intros (r & Hin & Hr). exists r. auto.
      * intros (r & [Heq|[Heq|Hin]] & Hr); [|discriminate|eauto].
        injection Heq as Heq. rewrite Heq in E. simpl in E.
        rewrite Hr in E. discriminate.
Qed.

End Backoff.

Example backoff_delays_6 : backoff_delays 6 1 = [1; 2; 4; 8; 16; 32].
Proof. reflexivity. Qed.

(** C1. [_post_with_backoff] makes at most six requests, all of them POSTs
    of the payload to the evaluation URL.  It never raises: after [m]
    failed attempts (another status than 200, or an exception) it has
    slept 1, 2, 4, ... once per failure, and it returns [True] exactly
    when a request got a response with status 200.  When the first five
    attempts fail and the sixth gets a 200, it returns [True] after six
    requests, having slept 1 + 2 + 4 + 8 + 16 = 31. *)
Theorem post_with_backoff_delivery (url : json) (p : payload) (w : world) (k : nat) :
  let post := PostCallback url p in
  let res := fst (_post_with_backoff url p w k) in
  let tr := snd (_post_with_backoff url p w k) in
  (calls tr <= 6)%nat /\
  (forall e, In e tr -> (exists o, e = EHttp post o) \/ (exists s, e = ESleep s)) /\
  (exists m : nat,
      (m <= 6)%nat /\ sleeps tr = backoff_delays m 1 /\
      (forall i, (i < m)%nat -> delivered (oracle w (k + i) post) = false) /\
      ((res = Ok true /\ calls tr = S m /\ delivered (oracle w (k + m) post) = true) \/
       (res = Ok false /\ calls tr = 6%nat /\ m = 6%nat))) /\
  (res = Ok true <->
   exists r, In (EHttp post (Reply r)) tr /\ status_code r = 200) /\
  ((forall i, (i < 5)%nat -> delivered (oracle w (k + i) post) = false) ->
   delivered (oracle w (k + 5) post) = true ->
   res = Ok true /\ calls tr = 6%nat /\
   sleeps tr = [1; 2; 4; 8; 16] /\ slept tr = 31).
Proof.
  intros post res tr. subst res tr. unfold _post_with_backoff.
  destruct (post_attempts_shape url p w 6 1 k) as (m & Hm & Hs & Hf & Hr).
  fold post in Hf, Hr.
  split; [|split; [|split; [|split]]].
  - destruct Hr as [(_ & Hc & Hlt & _)|(_ & Hc & _)]; rewrite Hc; lia.
  - intros e. apply post_attempts_events.
  - exists m. repeat split; auto.
    destruct Hr as [(Hr & Hc & _ & Hd)|(Hr & Hc & Hmn)]; [left|right]; auto.
  - apply post_attempts_true_iff.
  - intros Hfail Hsixth.
    assert (m = 5%nat) as ->.
    { destruct Hr as [(_ & _ & Hlt & Hd)|(_ & _ & ->)].
      - destruct (Nat.lt_ge_cases m 5) as [Hlt5|Hge]; [|lia].
        rewrite (Hfail m Hlt5) in Hd. discriminate.
      - rewrite (Hf 5%nat) in Hsixth by lia. discriminate. }
    destruct Hr as [(Hr & Hc & _ & _)|(_ & _ & Hmn)]; [|lia].
    unfold slept. rewrite Hs. repeat split; auto.
Qed.

Lemma post_with_backoff_delivery_witness :
  fst (_post_with_backoff Demo.cb Demo.p0 Demo.w_flaky 0%nat) = Ok true /\
  slept (snd (_post_with_backoff Demo.cb Demo.p0 Demo.w_flaky 0%nat)) = 31.
Proof.
  destruct (post_with_backoff_delivery Demo.cb Demo.p0 Demo.w_flaky 0%nat)
    as (_ & _ & _ & _ & Hsc).
  destruct Hsc as (Hr & _ & _ & Hs).
  - intros i Hi.
    destruct i as [|[|[|[|[|i]]]]]; try reflexivity. lia.
  - reflexivity.
  - split; assumption.
Defined.

(** ** The helpers, one request each *)

Section Helpers.

Context `{PyRuntime}.
Variable w : world.

Lemma request_run (c : call) (k : nat) :
  request c w k =
    (match oracle w k c with Reply r => Ok r | Fails e => Raise (PyExc e) end,
     [EHttp c (oracle w k c)]).
Proof.
  unfold request, bind, http. simpl. destruct (oracle w k c); reflexivity.
Qed.

Lemma gh_owner_run (cfg : config) (k : nat) :
  _gh_owner cfg w k =
    if env_set (OWNER cfg) then (Ok (JStr (default EmptyString (OWNER cfg))), [])
    else (login_result (oracle w k GetUser), [EHttp GetUser (oracle w k GetUser)]).
Proof.
  unfold _gh_owner. destruct (env_set (OWNER cfg)); [reflexivity|].
  unfold bind. rewrite request_run. unfold login_result, raise_for_status, json_of.
  destruct (oracle w k GetUser) as [e|r]; [reflexivity|].
  destruct (is_success r); [|reflexivity]. simpl.
  destruct (body r) as [j|]; [|reflexivity]. simpl.
  unfold lift. destruct (py_getitem j "login"); reflexivity.
Qed.

Lemma gh_create_repo_run (owner : json) (repo : string) (k : nat) :
  _gh_create_repo owner repo w k =
    (create_result (oracle w k (CreateRepo repo)),
     [EHttp (CreateRepo repo) (oracle w k (CreateRepo repo))]).
Proof.
  unfold _gh_create_repo, bind. rewrite request_run.
  unfold create_result, create_accepted.
  destruct (oracle w k (CreateRepo repo)) as [e|r]; [reflexivity|].
  destruct (Z.eqb (status_code r) 201); simpl; [reflexivity|].
  destruct (str_contains _ _); reflexivity.
Qed.

Lemma gh_put_file_run (owner : json) (repo : string) (path : json) (c : content)
    (message : string) (k : nat) :
  let rq := PutFile (fmt owner) repo (fmt path) message c in
  _gh_put_file owner repo path c message w k =
    (write_result (oracle w k rq), [EHttp rq (oracle w k rq)]).
Proof.
  intros rq. unfold _gh_put_file, bind. fold rq. rewrite request_run.
  unfold write_result, raise_for_status, json_of.
  destruct (oracle w k rq) as [e|r]; [reflexivity|].
  destruct (is_success r); [|reflexivity]. simpl.
  destruct (body r) as [j|]; [|reflexivity]. simpl.
  unfold lift. destruct (py_getitem j "commit") as [commit|e]; [|reflexivity].
  simpl. destruct (py_getitem commit "sha"); reflexivity.
Qed.

Lemma gh_pages_url_run (owner : json) (repo : string) (k : nat) :
  let rq := GetPages (fmt owner) repo in
  _gh_pages_url owner repo w k =
    (pages_result (oracle w k rq), [EHttp rq (oracle w k rq)]).
Proof.
  intros rq. unfold _gh_pages_url, bind. fold rq. rewrite request_run.
  unfold pages_result, json_of.
  destruct (oracle w k rq) as [e|r]; [reflexivity|].
  destruct (Z.eqb (status_code r) 200); [|reflexivity]. simpl.
  destruct (body r) as [j|]; [|reflexivity]. simpl.
  unfold lift. destruct (py_get_method j "html_url"); reflexivity.
Qed.

End Helpers.

(** ** Polling for the pages URL *)

Section Polling.

Context `{PyRuntime}.
Variables (owner : json) (repo : string) (w : world).

Let rq := GetPages (fmt owner) repo.

(** One turn of the loop: an exception leaves it, a truthy value breaks
    out of it, anything else sleeps 5 and goes on. *)
Lemma poll_pages_S (n : nat) (v : json) (k : nat) :
  poll_pages (S n) v owner repo w k =
    match pages_result (oracle w k rq) with
    | Raise e => (Raise e, [EHttp rq (oracle w k rq)])
    | Ok u =>
        if truthy u then (Ok u, [EHttp rq (oracle w k rq)])
        else (fst (poll_pages n u owner repo w (S k)),
              EHttp rq (oracle w k rq) :: ESleep 5
                :: snd (poll_pages n u owner repo w (S k)))
    end.
Proof.
  simpl. unfold bind at 1. rewrite gh_pages_url_run. fold rq.
  destruct (pages_result (oracle w k rq)) as [u|e]; [|reflexivity].
  simpl. destruct (truthy u); [reflexivity|].
  unfold bind, sleep. simpl. replace (k + 1 + 0)%nat with (S k) by lia.
  destruct (poll_pages n u owner repo w (S k)) as [r tr]. reflexivity.
Qed.

(** The shape of every run of the loop: [m] polls without a URL, each
    followed by a sleep of 5, and then a poll that yields a URL, a poll
    that raises, or the end of the loop with the value of the last poll. *)
Lemma poll_pages_shape (n : nat) (v : json) (k : nat) :
  exists m : nat,
    (m <= n)%nat /\
    sleeps (snd (poll_pages n v owner repo w k)) = replicate m 5 /\
    (forall i, (i < m)%nat ->
       exists u, pages_result (oracle w (k + i) rq) = Ok u /\ truthy u = false) /\
    ((exists u, fst (poll_pages n v owner repo w k) = Ok u /\ truthy u = true /\
                calls (snd (poll_pages n v owner repo w k)) = S m /\ (m < n)%nat /\
                pages_result (oracle w (k + m) rq) = Ok u) \/
     (exists e, fst (poll_pages n v owner repo w k) = Raise e /\
                calls (snd (poll_pages n v owner repo w k)) = S m /\ (m < n)%nat /\
                pages_result (oracle w (k + m) rq) = Raise e) \/
     (m = n /\ calls (snd (poll_pages n v owner repo w k)) = n /\
      fst (poll_pages n v owner repo w k) =
        Ok (match n with
            | O => v
            | S n' => match pages_result (oracle w (k + n') rq) with
                      | Ok u => u
                      | Raise _ => JNull
                      end
            end))).
Proof.
  revert v k. induction n as [|n IH]; intros v k.
  - exists O. simpl. repeat split; try lia. right. right. auto.
  - rewrite poll_pages_S.
    destruct (pages_result (oracle w k rq)) as [u|e] eqn:E.
    + destruct (truthy u) eqn:Tu.
      * exists O. simpl. repeat split; try lia.
        left. exists u. rewrite Nat.add_0_r. repeat split; auto. lia.
      * destruct (IH u (S k)) as (m & Hm & Hs & Hf & Hr).
        exists (S m). simpl. rewrite Hs. repeat split; try lia.
        -- intros [|i] Hi.
           ++ rewrite Nat.add_0_r. eauto.
           ++ replace (k + S i)%nat with (S k + i)%nat by lia. apply Hf. lia.
        -- replace (k + S m)%nat with (S k + m)%nat by lia.
           destruct Hr as [(u' & Hr & Ht & Hc & Hlt & Hp)
                          |[(e & Hr & Hc & Hlt & Hp)|(Hmn & Hc & Hr)]].
           ++ left. exists u'. repeat split; auto. lia.
           ++ right. left. exists e. repeat split; auto. lia.
           ++ right. right. repeat split; try lia. rewrite Hr.
              destruct n as [|n'].
              ** rewrite Nat.add_0_r, E. reflexivity.
              ** replace (k + S n')%nat with (S k + n')%nat by lia. reflexivity.
    + exists O. simpl. repeat split; try lia.
      right. left. exists e. rewrite Nat.add_0_r. repeat split; auto. lia.
Qed.

(** Every event of the loop is a GET of the pages endpoint or a sleep of
    5. *)
Lemma poll_pages_events (n : nat) (v : json) (k : nat) (e : event) :
  In e (snd (poll_pages n v owner repo w k)) ->
  (exists o, e = EHttp rq o) \/ e = ESleep 5.
Proof.
  revert v k. induction n as [|n IH]; intros v k.
  - simpl. tauto.
  - rewrite poll_pages_S.
    destruct (pages_result (oracle w k rq)) as [u|ex].
    + destruct (truthy u); simpl.
      * intros [<-|[]]. eauto.
      * intros [<-|[<-|Hin]]; eauto.
    + simpl. intros [<-|[]]. eauto.
Qed.





End Polling.

(** ** Publishing the files *)

Section Publishing.

Context `{PyRuntime}.

(** The loop over the attachments appends the ones that decode, in
    order, and nothing else. *)
Lemma append_attachments_decoded (files : list (json * content)) (atts : list json) :
  append_attachments files atts = files ++ decoded_attachments atts.
Proof.
  revert files. induction atts as [|att atts IH]; intros files; simpl.
  - now rewrite app_nil_r.
  - unfold decoded_attachments. simpl.
    destruct (attachment_file att) as [f|e]; rewrite IH.
    + now rewrite <- app_assoc.
    + reflexivity.
Qed.

Variables (owner : json) (repo : string) (w : world).

Lemma put_files_cons (f : json * content) (rest : list (json * content))
    (last_commit : json) (k : nat) :
  let rq := PutFile (fmt owner) repo (fmt f.1) ("add " +:+ fmt f.1) f.2 in
  put_files owner repo (f :: rest) last_commit w k =
    match write_result (oracle w k rq) with
    | Raise e => (Raise e, [EHttp rq (oracle w k rq)])
    | Ok sha => (fst (put_files owner repo rest sha w (S k)),
                 EHttp rq (oracle w k rq) :: snd (put_files owner repo rest sha w (S k)))
    end.
Proof.
  destruct f as [p c]. intros rq. simpl. unfold bind at 1.
  rewrite gh_put_file_run. simpl in rq. fold rq.
  destruct (write_result (oracle w k rq)) as [sha|e]; [|reflexivity].
  simpl. replace (k + 1)%nat with (S k) by lia.
  destruct (put_files owner repo rest sha w (S k)). reflexivity.
Qed.

(** The shape of every run of the loop: the files are written in order,
    one request each, up to the end of the list or to the first write
    that raises; that write is the last event, and its exception the
    result. *)
Lemma put_files_shape (files : list (json * content)) (last_commit : json) (k : nat) :
  let res := fst (put_files owner repo files last_commit w k) in
  let tr := snd (put_files owner repo files last_commit w k) in
  exists done rest : list (json * content),
    files = done ++ rest /\
    written tr = as_written <$> done /\
    length tr = length done /\
    Forall (fun e => kind_of e = KPut) tr /\
    ((rest = [] /\ res = Ok (last_written tr last_commit) /\
      Forall write_ok (outcomes tr)) \/
     (exists tr0 c o e,
        tr = tr0 ++ [EHttp c o] /\ write_result o = Raise e /\ res = Raise e /\
        Forall write_ok (outcomes tr0))).
Proof.
  revert last_commit k. induction files as [|f files IH]; intros last_commit k res tr.
  - exists [], []. subst res tr. simpl. repeat split; auto.
  - subst res tr. rewrite put_files_cons.
    set (rq := PutFile (fmt owner) repo (fmt f.1) ("add " +:+ fmt f.1) f.2).
    destruct (write_result (oracle w k rq)) as [sha|e] eqn:E.
    + destruct (IH sha (S k)) as (done & rest & Hf & Hw & Hl & Hk & Hr).
      exists (f :: done), rest. subst rq.
      cbn [fst snd written length last_written outcomes]. rewrite E.
      split; [simpl; congruence|]. split; [rewrite Hw; reflexivity|].
      split; [congruence|]. split; [constructor; auto|].
      destruct Hr as [(Hrest & Hres & Hok)|(tr0 & c & o & e & Htr & Hwr & Hres & Hok)].
      * left. repeat split; auto. constructor; [exists sha; auto|auto].
      * right. eexists (_ :: tr0), c, o, e.
        rewrite Htr. cbn [outcomes]. repeat split; eauto.
        constructor; [exists sha; eauto|auto].
    + exists [f], files. simpl. repeat split; auto.
      right. exists [], rq, (oracle w k rq), e. simpl. repeat split; auto.
Qed.

End Publishing.

(** ** Every run of the handler leaves it at one of its exits *)

Section Exits.

Context `{PyRuntime}.

Ltac leave := cbn [fst snd ret app]; rewrite ?app_nil_r.

Lemma bind_run {A B} (m : M A) (f : A -> M B) (w : world) (n : nat) :
  bind m f w n =
    match m w n with
    | (Ok a, t1) => (fst (f a w (n + calls t1)%nat), t1 ++ snd (f a w (n + calls t1)%nat))
    | (Raise e, t1) => (Raise e, t1)
    end.
Proof.
  unfold bind. destruct (m w n) as [[a|e] t1]; [|reflexivity].
  destruct (f a w (n + calls t1)%nat). reflexivity.
Qed.

Lemma bind_lift {A B} (r : result A) (f : A -> M B) (w : world) (n : nat) :
  bind (lift r) f w n =
    match r with
    | Ok a => f a w n
    | Raise e => (Raise e, [])
    end.
Proof.
  unfold bind, lift. destruct r as [a|e]; [|reflexivity].
  simpl. rewrite Nat.add_0_r. destruct (f a w n). reflexivity.
Qed.

Lemma bind_gmtime {B} (f : Z -> M B) (w : world) (n : nat) :
  bind gmtime_year f w n = f (tm_year w) w n.
Proof.
  unfold bind, gmtime_year. simpl. rewrite Nat.add_0_r.
  destruct (f (tm_year w) w n). reflexivity.
Qed.

Lemma bind_need_env {B} (cfg : config) (f : unit -> M B) (w : world) (n : nat) :
  bind (_need_env cfg) f w n =
    if (env_set (GH_TOKEN cfg) && env_set (SHARED_SECRET cfg))%bool
    then f tt w n
    else (Raise (HTTPException 500 "Missing GH_TOKEN or SHARED_SECRET"), []).
Proof.
  unfold bind, _need_env.
  destruct (env_set (GH_TOKEN cfg)), (env_set (SHARED_SECRET cfg)); simpl; auto.
  rewrite Nat.add_0_r. destruct (f tt w n). reflexivity.
Qed.

(** The callback delivery returns, whatever the endpoint does. *)
Lemma post_with_backoff_returns (url : json) (p : payload) (w : world) (k : nat) :
  exists b, fst (_post_with_backoff url p w k) = Ok b.
Proof.
  unfold _post_with_backoff.
  destruct (post_attempts_shape url p w 6 1 k) as (m & _ & _ & _ & Hr).
  destruct Hr as [(Hr & _)|(Hr & _)]; eauto.
Qed.

Lemma handle_run_complete (cfg : config) (data : gmap string json) (w : world) :
  handle_run cfg data w (fst (handle cfg data w 0%nat)) (snd (handle cfg data w 0%nat)).
Proof.
  unfold handle. rewrite bind_need_env.
  destruct (env_set (GH_TOKEN cfg) && env_set (SHARED_SECRET cfg))%bool eqn:Ecfg;
    [|now apply exit_unconfigured].
  apply andb_true_iff in Ecfg.
  destruct (py_eq_env (dict_get data "secret") (SHARED_SECRET cfg)) eqn:Esec;
    cbn [negb]; [|now apply exit_forbidden].
  rewrite bind_lift.
  destruct (py_int (dict_get_default data "round" (JInt 1))) as [z|e] eqn:Eround;
    [|now apply exit_round].
  destruct (forallb truthy _) eqn:Ereq; cbn [negb];
    [|now apply exit_missing with (z := z)].
  assert (accepted cfg data z) as Hacc by (repeat split; tauto).
  rewrite bind_run.
  destruct (_gh_owner cfg w 0%nat) as [[owner|e] t1] eqn:Eowner;
    [|now apply exit_owner with (z := z)].
  rewrite Nat.add_0_l, bind_lift.
  destruct (py_replace (dict_get data "task") slash hyphen) as [repo|e] eqn:Etask;
    [|leave; now apply exit_task with (z := z) (owner := owner)].
  assert (resolved cfg data w owner t1 repo) as Hres by (split; assumption).
  rewrite bind_run, gh_create_repo_run.
  destruct (create_result (oracle w (calls t1) (CreateRepo repo))) as [[]|e] eqn:Ecreate;
    [|leave; now apply exit_create with (z := z) (owner := owner)].
  cbn [calls]. rewrite Nat.add_1_r, bind_gmtime, bind_lift.
  destruct (py_iter (dict_get_default data "attachments" (JList []))) as [atts|e] eqn:Eiter;
    [|leave; now apply exit_iter with (z := z) (owner := owner)].
  assert (created data w t1 repo atts) as Hcre by (split; assumption).
  rewrite bind_run.
  destruct (put_files owner repo _ (JStr EmptyString) w (S (calls t1)))
    as [[last_commit|e] t3] eqn:Eput;
    [|leave; now apply exit_put with (z := z) (owner := owner) (atts := atts)].
  rewrite bind_run.
  destruct (poll_pages 12 JNull owner repo w (S (calls t1) + calls t3)%nat)
    as [[found|e] t4] eqn:Epoll;
    [|leave; now apply exit_poll with (z := z) (owner := owner) (atts := atts)
                                       (last_commit := last_commit)].
  rewrite bind_run.
  fold (result_payload data z owner repo last_commit found).
  destruct (post_with_backoff_returns (dict_get data "evaluation_url")
              (result_payload data z owner repo last_commit found) w
              (S (calls t1) + calls t3 + calls t4)%nat) as [b Hb].
  destruct (_post_with_backoff _ _ w _) as [r5 t5] eqn:Epost.
  cbn [fst] in Hb. subst r5. leave.
  replace t5 with (snd (_post_with_backoff (dict_get data "evaluation_url")
              (result_payload data z owner repo last_commit found) w
              (S (calls t1) + calls t3 + calls t4)%nat)) by now rewrite Epost.
  now apply exit_return with (atts := atts).
Qed.

End Exits.

(** ** Which stage an event comes from *)

Section Stages.

Context `{PyRuntime}.
Variable w : world.

Lemma gh_owner_kind (cfg : config) (k : nat) (r : result json) (t : list event) (e : event) :
  _gh_owner cfg w k = (r, t) -> In e t -> kind_of e = KUser.
Proof.
  rewrite gh_owner_run. destruct (env_set (OWNER cfg)); intros [= _ <-].
  - intros [].
  - intros [<-|[]]. reflexivity.
Qed.

Lemma put_files_kind (owner : json) (repo : string) (files : list (json * content))
    (last_commit : json) (k : nat) (r : result json) (t : list event) (e : event) :
  put_files owner repo files last_commit w k = (r, t) -> In e t -> kind_of e = KPut.
Proof.
  intros Hrun Hin.
  destruct (put_files_shape owner repo w files last_commit k)
    as (done & rest & _ & _ & _ & Hk & _).
  rewrite Hrun in Hk. cbn [snd] in Hk.
  rewrite List.Forall_forall in Hk. auto.
Qed.

Lemma poll_pages_kind (owner : json) (repo : string) (n : nat) (v : json) (k : nat)
    (r : result json) (t : list event) (e : event) :
  poll_pages n v owner repo w k = (r, t) -> In e t ->
  kind_of e = KPages \/ kind_of e = KSleep.
Proof.
  intros Hrun Hin.
  destruct (poll_pages_events owner repo w n v k e) as [[o ->]| ->].
  - now rewrite Hrun.
  - now left.
  - now right.
Qed.

Lemma post_with_backoff_kind (url : json) (p : payload) (k : nat) (e : event) :
  In e (snd (_post_with_backoff url p w k)) ->
  kind_of e = KCallback \/ kind_of e = KSleep.
Proof.
  intros Hin. destruct (post_attempts_events url p w 6 1 k e Hin) as [[o ->]|[s ->]].
  - now left.
  - now right.
Qed.

End Stages.

(** Splits [In e (t1 ++ a :: t2 ++ ...)] into its cases. *)
Ltac cases_in H :=
  first
    [ apply in_app_or in H; destruct H as [H|H]; [cases_in H|cases_in H]
    | destruct H as [H|H]; [|cases_in H]
    | idtac ].

(** Closes a goal whose hypotheses put an event in a stage that emits no
    event of its kind. *)
Ltac wrong_stage :=
  match goal with
  | Hrun : _gh_owner _ _ _ = (_, ?t), Hin : In _ ?t |- _ =>
      apply (gh_owner_kind _ _ _ _ _ _ Hrun) in Hin; discriminate Hin
  | Hrun : put_files _ _ _ _ _ _ = (_, ?t), Hin : In _ ?t |- _ =>
      apply (put_files_kind _ _ _ _ _ _ _ _ _ Hrun) in Hin; discriminate Hin
  | Hrun : poll_pages _ _ _ _ _ _ = (_, ?t), Hin : In _ ?t |- _ =>
      apply (poll_pages_kind _ _ _ _ _ _ _ _ _ Hrun) in Hin;
      destruct Hin as [Hin|Hin]; discriminate Hin
  | Hin : In _ (snd (_post_with_backoff _ _ _ _)) |- _ =>
      apply post_with_backoff_kind in Hin;
      destruct Hin as [Hin|Hin]; discriminate Hin
  | Hin : create_event _ _ _ = _ |- _ => discriminate Hin
  | Hin : In _ [] |- _ => destruct Hin
  | Hin : False |- _ => destruct Hin
  end.

(** The first attempt of the delivery is always made. *)
Lemma post_with_backoff_first (url : json) (p : payload) (w : world) (k : nat) :
  In (EHttp (PostCallback url p) (oracle w k (PostCallback url p)))
     (snd (_post_with_backoff url p w k)).
Proof.
  unfold _post_with_backoff. rewrite post_attempts_S.
  destruct (delivered _); now left.
Qed.

(** C8. The callback delivery never raises, whatever the endpoint does.
    Whenever [handle] has made a delivery attempt, with whatever outcome,
    its own result is the returned dict with [ok] and the payload it
    posted, which the framework answers with status 200: no outcome of the
    delivery, a 200 or six failures, changes the answer to the caller.
    And every run that returns has posted the payload it returns. *)
Theorem callback_failure_absorbed `{PyRuntime} :
  (forall url p w k, exists b, fst (_post_with_backoff url p w k) = Ok b) /\
  (forall cfg data w url p o,
      In (EHttp (PostCallback url p) o) (snd (handle cfg data w 0%nat)) ->
      fst (handle cfg data w 0%nat) = Ok {| ok := true; fields := p |} /\
      response_status (fst (handle cfg data w 0%nat)) = 200) /\
  (forall cfg data w a,
      fst (handle cfg data w 0%nat) = Ok a ->
      ok a = true /\
      exists o, In (EHttp (PostCallback (dict_get data "evaluation_url") (fields a)) o)
                   (snd (handle cfg data w 0%nat))).
Proof.
  split; [|split].
  - apply post_with_backoff_returns.
  - intros cfg data w url p o.
    pose proof (handle_run_complete cfg data w) as Hrun.
    destruct (handle cfg data w 0%nat) as [r tr]. cbn [fst snd] in *.
    intros Hin.
    inversion Hrun as
      [ Hc | Hc Hs | e Hc Hs He | z Hc Hs Hz Hq
      | z e t1 Ha Ho | z owner t1 e Ha Ho Hk
      | z owner t1 repo e Ha Hv Hcr | z owner t1 repo e Ha Hv Hcr Hi
      | z owner t1 repo atts e t3 Ha Hv Hcr Hp
      | z owner t1 repo atts lc t3 e t4 Ha Hv Hcr Hp Hg
      | z owner t1 repo atts lc t3 found t4 Ha Hv Hcr Hp Hg ];
      subst; try destruct Hv as [Ho Hk];
      cases_in Hin; try wrong_stage.
    destruct (post_attempts_events _ _ _ _ _ _ _ Hin) as [[o' Heq]|[s Heq]];
      [|discriminate Heq].
    injection Heq as _ <- _. split; reflexivity.
  - intros cfg data w a.
    pose proof (handle_run_complete cfg data w) as Hrun.
    destruct (handle cfg data w 0%nat) as [r tr]. cbn [fst snd] in *.
    intros ->.
    inversion Hrun as
      [ | | | | | | | | |
      | z owner t1 repo atts lc t3 found t4 Ha Hv Hcr Hp Hg ]; subst.
    split; [reflexivity|]. eexists. cbn [fields].
    apply in_or_app. right. right. apply in_or_app. right. apply in_or_app. right.
    apply post_with_backoff_first.
Qed.

Lemma callback_failure_absorbed_witness :
  response_status (fst (@handle Reference.runtime Demo.cfg Demo.data Demo.w_quiet 0%nat)) = 200.
Proof.
  destruct (@callback_failure_absorbed Reference.runtime) as (_ & Habsorbed & _).
  apply (Habsorbed Demo.cfg Demo.data Demo.w_quiet Demo.cb Demo.p0
           (Demo.reply 500 "down" None)).
  vm_compute. repeat (first [left; reflexivity|right]).
Defined.

(** ** The checks on the request *)

Section Checks.

Context `{PyRuntime}.
Variables (cfg : config) (data : gmap string json) (w : world) (n : nat).

Lemma handle_forbidden :
  configured cfg -> secret_matches cfg data = false ->
  handle cfg data w n = (Raise (HTTPException 403 "Invalid secret"), []).
Proof.
  intros [Ht Hs] Hm. unfold handle. rewrite bind_need_env, Ht, Hs.
  unfold secret_matches in Hm. cbn [andb]. rewrite Hm. reflexivity.
Qed.

Lemma handle_bad_round (e : exn) :
  configured cfg -> secret_matches cfg data = true -> round_of data = Raise e ->
  handle cfg data w n = (Raise e, []).
Proof.
  intros [Ht Hs] Hm Hr. unfold handle. rewrite bind_need_env, Ht, Hs.
  unfold secret_matches in Hm. cbn [andb]. rewrite Hm. cbn [negb].
  rewrite bind_lift. unfold round_of in Hr. rewrite Hr. reflexivity.
Qed.

Lemma handle_missing (z : Z) :
  configured cfg -> secret_matches cfg data = true -> round_of data = Ok z ->
  required_present data = false ->
  handle cfg data w n = (Raise (HTTPException 400 "Missing required fields"), []).
Proof.
  intros [Ht Hs] Hm Hr Hq. unfold handle. rewrite bind_need_env, Ht, Hs.
  unfold secret_matches in Hm. cbn [andb]. rewrite Hm. cbn [negb].
  rewrite bind_lift. unfold round_of in Hr. rewrite Hr.
  unfold required_present in Hq. rewrite Hq. reflexivity.
Qed.

(** A request that fails one of the checks leaves an empty trace, on any
    configuration. *)
Lemma handle_rejected_trace :
  secret_matches cfg data = false \/ (exists e, round_of data = Raise e)
    \/ required_present data = false ->
  snd (handle cfg data w n) = [].
Proof.
  intros Hrej. unfold handle. rewrite bind_need_env.
  destruct (env_set (GH_TOKEN cfg) && env_set (SHARED_SECRET cfg))%bool; [|reflexivity].
  unfold secret_matches, round_of, required_present in Hrej.
  destruct (py_eq_env _ _); cbn [negb]; [|reflexivity].
  rewrite bind_lift.
  destruct (py_int _) as [z|e]; [|reflexivity].
  destruct (forallb truthy _); cbn [negb]; [|reflexivity].
  destruct Hrej as [Hs|[[e He]|Hq]]; discriminate.
Qed.

(** A required field that is absent fails the check. *)
Lemma missing_not_present (k : string) :
  In k ["email"; "task"; "nonce"; "evaluation_url"] -> data !! k = None ->
  required_present data = false.
Proof.
  unfold required_present, dict_get. cbn [forallb].
  intros [<-|[<-|[<-|[<-|[]]]]] ->; cbn [default truthy andb];
    rewrite ?andb_false_r; reflexivity.
Qed.

(** [int] raises nothing but its three conversion errors. *)
Lemma py_int_raises (v : json) (e : exn) :
  py_int v = Raise e ->
  e = PyExc ValueError \/ e = PyExc TypeError \/ e = PyExc OverflowError.
Proof.
  destruct v as [|b|z|s|l|m|f]; simpl; try (intros [= <-]; auto); try discriminate.
  - destruct (int_of_str s); [discriminate|]. intros [= <-]. auto.
  - destruct f; try discriminate; intros [= <-]; auto.
Qed.

End Checks.

(** ** The stages of a run that passed the checks *)

Section Sound.

Context `{PyRuntime}.
Variables (cfg : config) (data : gmap string json) (w : world).





End Sound.

(** C3. A request whose [secret] is not the shared secret makes no
    upstream call: the run emits no event, neither a request to the
    platform or to the callback nor a sleep.  On a server whose token and
    shared secret are configured, the result is the [HTTPException] with
    status 403. *)
Theorem bad_secret_forbidden `{PyRuntime} (cfg : config) (data : gmap string json)
    (w : world) (n : nat) :
  py_eq_env (dict_get data "secret") (SHARED_SECRET cfg) = false ->
  snd (handle cfg data w n) = [] /\
  (configured cfg ->
   handle cfg data w n = (Raise (HTTPException 403 "Invalid secret"), []) /\
   response_status (fst (handle cfg data w n)) = 403).
Proof.
  intros Hm. split.
  - apply handle_rejected_trace. now left.
  - intros Hc. rewrite (handle_forbidden cfg data w n Hc Hm). auto.
Qed.

Lemma bad_secret_forbidden_witness :
  @handle Reference.runtime Demo.cfg Demo.intruder Demo.w_quiet 0%nat
    = (Raise (HTTPException 403 "Invalid secret"), []).
Proof.
  destruct (@bad_secret_forbidden Reference.runtime Demo.cfg Demo.intruder
              Demo.w_quiet 0%nat) as [_ H403].
  - reflexivity.
  - apply H403. split; reflexivity.
Defined.

(** C4, as the code has it. A request with the matching secret that
    lacks one of [email], [task], [nonce], [evaluation_url] makes no
    upstream call: the run emits no event.  When its [round] is absent or
    converts to an integer, the result, on a configured server, is the
    [HTTPException] with status 400. *)
Theorem missing_field_rejected `{PyRuntime} (cfg : config) (data : gmap string json)
    (w : world) (n : nat) (k : string) :
  py_eq_env (dict_get data "secret") (SHARED_SECRET cfg) = true ->
  In k ["email"; "task"; "nonce"; "evaluation_url"] ->
  data !! k = None ->
  snd (handle cfg data w n) = [] /\
  (configured cfg ->
   (data !! "round" = None \/
    exists v z, data !! "round" = Some v /\ py_int v = Ok z) ->
   handle cfg data w n = (Raise (HTTPException 400 "Missing required fields"), []) /\
   response_status (fst (handle cfg data w n)) = 400).
Proof.
  intros Hm Hk Hnone.
  pose proof (missing_not_present data k Hk Hnone) as Hq. split.
  - apply handle_rejected_trace. auto.
  - intros Hc Hr.
    assert (exists z, round_of data = Ok z) as [z Hz].
    { unfold round_of, dict_get_default.
      destruct Hr as [-> |(v & z & -> & Hv)]; simpl; eauto. }
    rewrite (handle_missing cfg data w n z Hc Hm Hz Hq). auto.
Qed.

Lemma missing_field_rejected_witness :
  response_status
    (fst (@handle Reference.runtime Demo.cfg Demo.no_email Demo.w_quiet 0%nat)) = 400.
Proof.
  destruct (@missing_field_rejected Reference.runtime Demo.cfg Demo.no_email Demo.w_quiet
              0%nat "email") as [_ H400].
  - reflexivity.
  - left. reflexivity.
  - reflexivity.
  - apply H400.
    + split; reflexivity.
    + right. exists (JInt 2), 2. split; reflexivity.
Defined.

(** C4 as stated fails: with the matching secret and no [email], a
    [round] of ["abc"] or of [null] makes [int] raise before the fields
    are checked, and the response is a 500, not the 400. *)
Lemma missing_field_not_always_400 :
  Demo.no_email_bad_round !! "email" = None /\
  py_eq_env (dict_get Demo.no_email_bad_round "secret") (SHARED_SECRET Demo.cfg) = true /\
  @handle Reference.runtime Demo.cfg Demo.no_email_bad_round Demo.w_quiet 0%nat
    = (Raise (PyExc ValueError), []) /\
  @handle Reference.runtime Demo.cfg Demo.no_email_null_round Demo.w_quiet 0%nat
    = (Raise (PyExc TypeError), []) /\
  response_status
    (fst (@handle Reference.runtime Demo.cfg Demo.no_email_bad_round Demo.w_quiet 0%nat))
    <> 400.
Proof.
  repeat split; try reflexivity. vm_compute. discriminate.
Qed.

(** C10. A request with the matching secret whose [round] is present and
    does not convert to an integer makes no upstream call: the run emits
    no event.  On a configured server [handle] raises the conversion
    error of [int] and no [HTTPException]: a [ValueError] (a string that
    is no integer literal, a NaN), a [TypeError] ([null], a list, an
    object) or an [OverflowError] (an infinite float, such as [1e999]).
    The exception is not caught, so the response is a 500 and not the
    400, whether or not required fields are missing as well. *)
Theorem bad_round_raises `{PyRuntime} (cfg : config) (data : gmap string json)
    (w : world) (n : nat) (v : json) :
  py_eq_env (dict_get data "secret") (SHARED_SECRET cfg) = true ->
  data !! "round" = Some v ->
  (forall z, py_int v <> Ok z) ->
  snd (handle cfg data w n) = [] /\
  (configured cfg ->
   exists e,
     (e = ValueError \/ e = TypeError \/ e = OverflowError) /\
     py_int v = Raise (PyExc e) /\
     handle cfg data w n = (Raise (PyExc e), []) /\
     response_status (fst (handle cfg data w n)) = 500 /\
     response_status (fst (handle cfg data w n)) <> 400).
Proof.
  intros Hm Hv Hno.
  destruct (py_int v) as [z|e] eqn:E; [now destruct (Hno z)|].
  assert (round_of data = Raise e) as Hr.
  { unfold round_of, dict_get_default. rewrite Hv. exact E. }
  split.
  - apply handle_rejected_trace. eauto.
  - intros Hc. rewrite (handle_bad_round cfg data w n e Hc Hm Hr).
    destruct (py_int_raises v e E) as [-> |[-> | ->]];
      [exists ValueError|exists TypeError|exists OverflowError];
      (split; [auto|]); repeat split; try reflexivity; simpl; discriminate.
Qed.

Lemma bad_round_raises_witness :
  (exists e,
     @handle Reference.runtime Demo.cfg Demo.no_email_bad_round Demo.w_quiet 0%nat
       = (Raise (PyExc e), [])) /\
  (exists e,
     @handle Reference.runtime Demo.cfg Demo.no_email_inf_round Demo.w_quiet 0%nat
       = (Raise (PyExc e), [])).
Proof.
  split.
  - destruct (@bad_round_raises Reference.runtime Demo.cfg Demo.no_email_bad_round
                Demo.w_quiet 0%nat (JStr "abc")) as (_ & Hraise).
    + reflexivity.
    + reflexivity.
    + intros z. vm_compute. discriminate.
    + destruct Hraise as (e & _ & _ & He & _).
      * split; reflexivity.
      * exists e. exact He.
  - destruct (@bad_round_raises Reference.runtime Demo.cfg Demo.no_email_inf_round
                Demo.w_quiet 0%nat (JFloat (S754_infinity false))) as (_ & Hraise).
    + reflexivity.
    + reflexivity.
    + intros z. vm_compute. discriminate.
    + destruct Hraise as (e & _ & _ & He & _).
      * split; reflexivity.
      * exists e. exact He.
Defined.

(** ** The repository: its name and its creation *)






(** ** A create call that is answered one way or another *)

Section Create.

Context `{PyRuntime}.


Lemma without_create_other (t : list event) :
  (forall e, In e t -> kind_of e <> KCreate) -> without_create t = t.
Proof.
  induction t as [|e t IH]; intros Hno; [reflexivity|].
  assert (without_create t = t) as Ht by (apply IH; intros e' He'; apply Hno; now right).
  pose proof (Hno e (or_introl eq_refl)) as He.
  destruct e as [[]|]; simpl; rewrite ?Ht; auto. now destruct He.
Qed.







End Create.



(** C5 as stated fails: a refusal with status 403 whose text is no
    "already exists" response, but holds the word [exists], goes through
    as well; the run on [Demo.data] is not aborted and answers 200. *)
Lemma create_repo_failure_not_fatal :
  is_success Demo.gone_reply = false /\
  status_code Demo.gone_reply <> 201 /\
  str_contains "already exists" (str_lower (text Demo.gone_reply)) = false /\
  _gh_create_repo (JStr "octo") "a-b" Demo.w_gone 0%nat
    = (Ok tt, [EHttp (CreateRepo "a-b") (Reply Demo.gone_reply)]) /\
  In (EHttp (CreateRepo "a-b") (Reply Demo.gone_reply))
     (snd (@handle Reference.runtime Demo.cfg Demo.data Demo.w_gone 0%nat)) /\
  response_status (fst (@handle Reference.runtime Demo.cfg Demo.data Demo.w_gone 0%nat))
    = 200.
Proof.
  split; [reflexivity|]. split; [discriminate|]. split; [reflexivity|].
  split; [reflexivity|]. split.
  - vm_compute. left. reflexivity.
  - vm_compute. reflexivity.
Qed.

(** ** The pages URL in the result *)

Section PagesUrl.

Context `{PyRuntime}.









End PagesUrl.



(** C2 as stated fails: in a world whose pages endpoint answers every
    poll with a 200 and an empty [html_url], none of the twelve polls of
    the run on [Demo.data] yields a URL, and the loop ends with the empty
    string, not with [None]. *)
Lemma pages_poller_result_not_none :
  let run := @poll_pages Reference.runtime 12 JNull (JStr "octo") "a-b" Demo.w_blank
               (calls Demo.pre) in
  @published Reference.runtime Demo.cfg Demo.data Demo.w_blank 1 (JStr "octo") "a-b"
    (JStr "sha-hi.txt") Demo.pre /\
  outcomes (snd run) = replicate 12 Demo.blank_reply /\
  pages_result Demo.blank_reply = Ok (JStr EmptyString) /\
  truthy (JStr EmptyString) = false /\
  fst run = Ok (JStr EmptyString) /\
  fst run <> Ok JNull.
Proof.
  split; [|split; [|split; [|split; [|split]]]]; try (vm_compute; reflexivity).
  - exists [], Demo.atts, (tl Demo.pre).
    split; [|split; [|split; [|split]]]; try (vm_compute; reflexivity).
    + split; [split|split; [|split]]; vm_compute; reflexivity.
    + split; vm_compute; reflexivity.
    + split; vm_compute; reflexivity.
  - vm_compute. discriminate.
Qed.

(** ** The writes of a run *)

Lemma written_app (t1 t2 : list event) : written (t1 ++ t2) = written t1 ++ written t2.
Proof.
  induction t1 as [|[[]|] t1 IH]; simpl; auto. now rewrite IH.
Qed.

Lemma written_none (t : list event) :
  (forall e, In e t -> kind_of e <> KPut) -> written t = [].
Proof.
  induction t as [|e t IH]; intros Hno; [reflexivity|].
  assert (written t = []) as Ht by (apply IH; intros e' He'; apply Hno; now right).
  pose proof (Hno e (or_introl eq_refl)) as He.
  destruct e as [[]|]; simpl; auto. now destruct He.
Qed.

Lemma last_written_app (t1 t2 : list event) (acc : json) :
  last_written (t1 ++ t2) acc = last_written t2 (last_written t1 acc).
Proof.
  revert acc. induction t1 as [|[[]|] t1 IH]; intros acc; simpl; auto.
Qed.

Lemma last_written_none (t : list event) (acc : json) :
  (forall e, In e t -> kind_of e <> KPut) -> last_written t acc = acc.
Proof.
  induction t as [|e t IH]; intros Hno; [reflexivity|].
  assert (last_written t acc = acc) as Ht by (apply IH; intros e' He'; apply Hno; now right).
  pose proof (Hno e (or_introl eq_refl)) as He.
  destruct e as [[]|]; simpl; auto. now destruct He.
Qed.

Lemma outcomes_write_ok (t : list event) (c : call) (o : outcome) :
  Forall write_ok (outcomes t) -> In (EHttp c o) t -> write_ok o.
Proof.
  induction t as [|[c' o'|d] t IH]; simpl; intros Hall Hin.
  - destruct Hin.
  - inversion Hall as [|? ? Ho Ht]; subst.
    destruct Hin as [[= <- <-]|Hin]; auto.
  - destruct Hin as [Hin|Hin]; [discriminate|auto].
Qed.

(** Where the writes sit in a run of [handle]: nowhere, when the run
    leaves before the loop over [files]; otherwise in one block after the
    create call, which is the whole trace of that loop on the four fixed
    entries followed by the attachments. *)
Lemma handle_publish `{PyRuntime} (cfg : config) (data : gmap string json) (w : world) :
  ((exists e, fst (handle cfg data w 0%nat) = Raise e) /\
   (forall e, In e (snd (handle cfg data w 0%nat)) -> kind_of e <> KPut)) \/
  (exists owner repo atts t1 t3 rest r3,
      py_iter (dict_get_default data "attachments" (JList [])) = Ok atts /\
      put_files owner repo (append_attachments (fixed_files (tm_year w) owner) atts)
        (JStr EmptyString) w (S (calls t1)) = (r3, t3) /\
      snd (handle cfg data w 0%nat) = t1 ++ create_event w (calls t1) repo :: t3 ++ rest /\
      (forall e, In e t1 -> kind_of e <> KPut) /\
      (forall e, In e rest -> kind_of e <> KPut) /\
      match r3 with
      | Raise e => rest = [] /\ fst (handle cfg data w 0%nat) = Raise e
      | Ok last_commit =>
          forall a, fst (handle cfg data w 0%nat) = Ok a ->
                    commit_sha (fields a) = last_commit
      end).
Proof.
  pose proof (handle_run_complete cfg data w) as Hrun.
  destruct (handle cfg data w 0%nat) as [r tr]. cbn [fst snd] in *.
  inversion Hrun as
    [ Hc | Hc Hs | e Hc Hs He | z Hc Hs Hz Hq
    | z e t1 Ha Ho | z owner t1 e Ha Ho Hk
    | z owner t1 repo e Ha Hv Hcr | z owner t1 repo e Ha Hv Hcr Hi
    | z owner t1 repo atts e t3 Ha Hv Hcr Hp
    | z owner t1 repo atts lc t3 e t4 Ha Hv Hcr Hp Hg
    | z owner t1 repo atts lc t3 found t4 Ha Hv Hcr Hp Hg ];
    subst; try destruct Hv as [Ho Hk];
    try match goal with Hx : created _ _ _ _ _ |- _ => destruct Hx as [Hok Hit] end.
  1-8: left; (split; [eauto|]); intros ev Hin; cases_in Hin; try wrong_stage;
       try (apply (gh_owner_kind _ _ _ _ _ _ Ho) in Hin; congruence);
       subst ev; discriminate.
  - right. exists owner, repo, atts, t1, t3, [], (Raise e).
    rewrite app_nil_r. repeat split; auto.
    all: try solve [intros ev []].
    all: intros ev Hin; apply (gh_owner_kind _ _ _ _ _ _ Ho) in Hin; congruence.
  - right. exists owner, repo, atts, t1, t3, t4, (Ok lc).
    repeat split; auto.
    all: try discriminate.
    all: try solve [intros ev Hin; apply (gh_owner_kind _ _ _ _ _ _ Ho) in Hin; congruence].
    all: intros ev Hin; apply (poll_pages_kind _ _ _ _ _ _ _ _ _ Hg) in Hin;
         destruct Hin; congruence.
  - right. eexists owner, repo, atts, t1, t3, (t4 ++ _), (Ok lc).
    repeat split; eauto.
    all: try solve [now intros a [= <-]].
    all: try solve [intros ev Hin; apply (gh_owner_kind _ _ _ _ _ _ Ho) in Hin; congruence].
    all: intros ev Hin; apply in_app_or in Hin; destruct Hin as [Hin|Hin];
         [apply (poll_pages_kind _ _ _ _ _ _ _ _ _ Hg) in Hin; destruct Hin; congruence
         |apply post_with_backoff_kind in Hin; destruct Hin; congruence].
Qed.

Lemma put_files_run_shape `{PyRuntime} (owner : json) (repo : string) (w : world)
    (files : list (json * content)) (last_commit : json) (k : nat)
    (r3 : result json) (t3 : list event) :
  put_files owner repo files last_commit w k = (r3, t3) ->
  exists done rest : list (json * content),
    files = done ++ rest /\
    written t3 = as_written <$> done /\
    length t3 = length done /\
    ((rest = [] /\ r3 = Ok (last_written t3 last_commit) /\
      Forall write_ok (outcomes t3)) \/
     (exists tr0 c o e,
        t3 = tr0 ++ [EHttp c o] /\ write_result o = Raise e /\ r3 = Raise e /\
        Forall write_ok (outcomes tr0))).
Proof.
  intros E.
  destruct (put_files_shape owner repo w files last_commit k)
    as (done & rest & Hf & Hw & Hl & _ & Hr).
  rewrite E in Hw, Hl, Hr. cbn [fst snd] in *.
  exists done, rest. auto.
Qed.

(** C7. The files are the four fixed entries followed by the attachments
    that decode, in the order of the request.  The loop writes them in
    that order, one request each and nothing else.  A write that raises
    ends the run of [handle]: its exception is the result and its request
    the last event, so that the files before it stay written and the
    files after it are not tried.  When [handle] returns, every file was
    written, and the [commit_sha] of the payload is the identifier
    returned by the most recent write. *)
Theorem publication_order_no_rollback `{PyRuntime} :
  (forall year owner atts,
      append_attachments (fixed_files year owner) atts =
        [ (JStr "LICENSE", MIT_TEXT year (fmt owner));
          (JStr "README.md", README_MD);
          (JStr ".github/workflows/pages.yml", PAGES_WORKFLOW);
          (JStr "index.html", INDEX_HTML) ] ++ decoded_attachments atts) /\
  (forall owner repo w files last_commit k,
      let res := fst (put_files owner repo files last_commit w k) in
      let tr := snd (put_files owner repo files last_commit w k) in
      exists done rest,
        files = done ++ rest /\
        written tr = as_written <$> done /\
        length tr = length done /\
        ((rest = [] /\ res = Ok (last_written tr last_commit) /\
          Forall write_ok (outcomes tr)) \/
         (exists tr0 c o e,
            tr = tr0 ++ [EHttp c o] /\ write_result o = Raise e /\ res = Raise e /\
            Forall write_ok (outcomes tr0)))) /\
  (forall cfg data w atts,
      py_iter (dict_get_default data "attachments" (JList [])) = Ok atts ->
      exists owner,
        written (snd (handle cfg data w 0%nat)) `prefix_of`
          as_written <$> (fixed_files (tm_year w) owner ++ decoded_attachments atts)) /\
  (forall cfg data w c o e,
      In (EHttp c o) (snd (handle cfg data w 0%nat)) ->
      kind_of (EHttp c o) = KPut ->
      write_result o = Raise e ->
      fst (handle cfg data w 0%nat) = Raise e /\
      exists t0, snd (handle cfg data w 0%nat) = t0 ++ [EHttp c o]) /\
  (forall cfg data w a,
      fst (handle cfg data w 0%nat) = Ok a ->
      commit_sha (fields a) = last_written (snd (handle cfg data w 0%nat)) (JStr EmptyString) /\
      forall atts,
        py_iter (dict_get_default data "attachments" (JList [])) = Ok atts ->
        exists owner,
          written (snd (handle cfg data w 0%nat)) =
            as_written <$> (fixed_files (tm_year w) owner ++ decoded_attachments atts)).
Proof.
  split; [|split; [|split; [|split]]].
  - intros year owner atts. apply append_attachments_decoded.
  - intros owner repo w files last_commit k res tr. subst res tr.
    destruct (put_files_shape owner repo w files last_commit k)
      as (done & rest & Hf & Hw & Hl & _ & Hr).
    exists done, rest. auto.
  - intros cfg data w atts Hatts.
    destruct (handle_publish cfg data w)
      as [(_ & Hno)|(owner & repo & atts' & t1 & t3 & rest & r3 & Hit & Hput & Htr
                     & Hno1 & Hno2 & _)].
    + exists JNull. rewrite (written_none _ Hno). apply prefix_nil.
    + rewrite Hatts in Hit. injection Hit as <-. exists owner.
      rewrite Htr, written_app, (written_none t1 Hno1).
      unfold create_event. cbn [written app].
      rewrite written_app, (written_none rest Hno2), app_nil_r.
      destruct (put_files_run_shape _ _ _ _ _ _ _ _ Hput) as (done & rest' & Hf & Hw & _).
      rewrite append_attachments_decoded in Hf. rewrite Hf, Hw, fmap_app.
      now apply prefix_app_r.
  - intros cfg data w c o e Hin Hkind Hraise.
    destruct (handle_publish cfg data w)
      as [(_ & Hno)|(owner & repo & atts' & t1 & t3 & rest & r3 & Hit & Hput & Htr
                     & Hno1 & Hno2 & Hres)].
    + now destruct (Hno _ Hin).
    + rewrite Htr in Hin |- *.
      destruct (put_files_run_shape _ _ _ _ _ _ _ _ Hput)
        as (done & rest' & _ & _ & _ & [(_ & _ & Hall)|(tr0 & c' & o' & e' & Ht3 & Hw' & Hr3 & Hall)]).
      * cases_in Hin.
        -- now destruct (Hno1 _ Hin).
        -- unfold create_event in Hin. rewrite <- Hin in Hkind. discriminate.
        -- destruct (outcomes_write_ok _ _ _ Hall Hin) as [sha Hsha]. congruence.
        -- now destruct (Hno2 _ Hin).
      * subst t3 r3. destruct Hres as [-> Hres].
        cases_in Hin.
        -- now destruct (Hno1 _ Hin).
        -- unfold create_event in Hin. rewrite <- Hin in Hkind. discriminate.
        -- destruct (outcomes_write_ok _ _ _ Hall Hin) as [sha Hsha]. congruence.
        -- injection Hin as -> ->. rewrite Hw' in Hraise. injection Hraise as ->.
           split; [exact Hres|].
           exists (t1 ++ create_event w (calls t1) repo :: tr0).
           rewrite app_nil_r, <- app_assoc. reflexivity.
        -- destruct Hin.
        -- destruct Hin.
  - intros cfg data w a Hok.
    destruct (handle_publish cfg data w)
      as [((e & He) & _)|(owner & repo & atts' & t1 & t3 & rest & r3 & Hit & Hput & Htr
                          & Hno1 & Hno2 & Hres)].
    + rewrite He in Hok. discriminate.
    + destruct (put_files_run_shape _ _ _ _ _ _ _ _ Hput)
        as (done & rest' & Hf & Hw & _ & [(-> & Hr3 & _)|(tr0 & c' & o' & e' & _ & _ & Hr3 & _)]);
        subst r3.
      * rewrite app_nil_r in Hf. subst done. split.
        -- rewrite (Hres a Hok), Htr, last_written_app, (last_written_none t1 _ Hno1).
           unfold create_event. cbn [last_written app].
           now rewrite last_written_app, (last_written_none rest _ Hno2).
        -- intros atts Hatts. rewrite Hatts in Hit. injection Hit as <-. exists owner.
           rewrite Htr, written_app, (written_none t1 Hno1).
           unfold create_event. cbn [written app].
           rewrite written_app, (written_none rest Hno2), app_nil_r, Hw.
           now rewrite append_attachments_decoded.
      * destruct Hres as [_ Hres]. rewrite Hres in Hok. discriminate.
Qed.

Lemma publication_order_no_rollback_witness :
  fst (@handle Reference.runtime Demo.cfg Demo.data Demo.w_broken 0%nat)
    = Raise (PyExc HTTPStatusError) /\
  exists t0,
    snd (@handle Reference.runtime Demo.cfg Demo.data Demo.w_broken 0%nat) =
      t0 ++ [EHttp (PutFile "octo" "a-b" "README.md" "add README.md" README_MD)
               (Demo.reply 500 "Internal Server Error" None)].
Proof.
  destruct (@publication_order_no_rollback Reference.runtime) as (_ & _ & _ & Hfail & _).
  apply Hfail.
  - vm_compute. right. right. left. reflexivity.
  - reflexivity.
  - reflexivity.
Defined.

(** ** Attachments that do not decode *)

Section Attachments.

Context `{PyRuntime}.





End Attachments.



(** * Further properties of the code *)

(** ** The data-URI pattern *)

(** X1. The pattern of [_parse_data_uri] matches exactly the strings
    [data:<mediatype>;base64,<group>], optionally followed by one newline,
    where the media type is not empty and holds no semicolon and the
    group holds no newline; the group is what is handed to the base64
    decoder. *)
Theorem match_data_uri_spec (uri group : string) :
  match_data_uri uri = Some group <->
  exists mediatype tail,
    uri = "data:" +:+ mediatype +:+ ";base64," +:+ group +:+ tail /\
    mediatype <> EmptyString /\
    has_char semicolon mediatype = false /\
    has_char LF group = false /\
    (tail = EmptyString \/ tail = String LF EmptyString).
Proof.
  apply match_data_uri_iff.
Qed.

Lemma match_data_uri_spec_witness :
  match_data_uri (String.append "data:text/plain;base64,aGk=" (String LF EmptyString))
    = Some "aGk=".
Proof.
  apply match_data_uri_spec.
  exists "text/plain", (String LF EmptyString). repeat split.
  - discriminate.
  - right. reflexivity.
Defined.

(** X2. [_parse_data_uri] raises its [ValueError] on every string that
    does not start with [data:], on every string without a semicolon (a
    data URI that is not base64), on an empty media type
    ([data:;base64,...]) and whenever the first semicolon is not followed
    by [base64,] (a media type with a parameter, such as a charset). *)
Theorem parse_data_uri_rejects `{PyRuntime} :
  (forall u, strip_prefix "data:" u = None ->
             _parse_data_uri (JStr u) = Raise (PyExc ValueError)) /\
  (forall u, has_char semicolon u = false ->
             _parse_data_uri (JStr u) = Raise (PyExc ValueError)) /\
  (forall rest, _parse_data_uri (JStr ("data:;" +:+ rest)) = Raise (PyExc ValueError)) /\
  (forall mediatype rest,
      has_char semicolon mediatype = false ->
      strip_prefix "base64," rest = None ->
      _parse_data_uri (JStr ("data:" +:+ mediatype +:+ String semicolon rest))
        = Raise (PyExc ValueError)).
Proof.
  unfold _parse_data_uri, match_data_uri. split; [|split; [|split]].
  - intros u ->. reflexivity.
  - intros u Hu.
    destruct (strip_prefix "data:" u) as [r1|] eqn:E1; [|reflexivity].
    apply strip_prefix_spec in E1. subst u.
    rewrite has_char_append in Hu. apply orb_false_iff in Hu as [_ Hr1].
    now rewrite (proj2 (split_first_None semicolon r1) Hr1).
  - intros rest. reflexivity.
  - intros mt rest Hmt Hrest.
    rewrite (proj2 (strip_prefix_spec "data:" _ _) eq_refl).
    rewrite (proj2 (split_first_Some semicolon _ mt rest) (conj eq_refl Hmt)).
    destruct (String.eqb mt EmptyString); [reflexivity|]. now rewrite Hrest.
Qed.

Lemma parse_data_uri_rejects_witness :
  @_parse_data_uri Reference.runtime (JStr "data:text/plain;charset=utf-8;base64,aGk=")
    = Raise (PyExc ValueError).
Proof.
  destruct (@parse_data_uri_rejects Reference.runtime) as (_ & _ & _ & Hparam).
  apply (Hparam "text/plain" "charset=utf-8;base64,aGk="); reflexivity.
Defined.

(** X3. An attachment contributes a file exactly when it is an object
    with a [name], of any type, and a [url] that is a string which the
    pattern matches and whose group the base64 decoder accepts; the file
    is then that name with the decoded bytes.  Everything else (no
    object, a key missing, a [url] that is no string) contributes
    nothing. *)
Theorem attachment_file_spec `{PyRuntime} (att : json) (f : json * content) :
  attachment_file att = Ok f <->
  exists m name u group bytes,
    att = JDict m /\ m !! "name" = Some name /\ m !! "url" = Some (JStr u) /\
    match_data_uri u = Some group /\ b64decode group = Some bytes /\
    f = (name, Decoded bytes).
Proof.
  unfold attachment_file, py_getitem, _parse_data_uri. split.
  - destruct att as [| | | | |m|]; try discriminate.
    destruct (m !! "name") as [name|] eqn:En; [|discriminate].
    destruct (m !! "url") as [url|] eqn:Eu; [|discriminate].
    destruct url as [| | |u| | |]; try discriminate.
    destruct (match_data_uri u) as [g|] eqn:Em; [|discriminate].
    destruct (b64decode g) as [b|] eqn:Eb; [|discriminate].
    intros [= <-]. exists m, name, u, g, b. repeat split; auto.
  - intros (m & name & u & g & b & -> & -> & -> & -> & -> & ->). reflexivity.
Qed.

Lemma attachment_file_spec_witness :
  @attachment_file Reference.runtime Demo.hi_txt = Ok (JStr "hi.txt", Decoded "hi").
Proof.
  apply (@attachment_file_spec Reference.runtime).
  eexists _, (JStr "hi.txt"), "data:text/plain;base64,aGk=", "aGk=", "hi".
  repeat split; reflexivity.
Defined.

(** ** The repository name *)

Lemma str_replace_no_old (old new : ascii) (s : string) :
  old <> new -> has_char old (str_replace old new s) = false.
Proof.
  intros Hne. induction s as [|c s IH]; simpl; [reflexivity|].
  rewrite IH, orb_false_r. destruct (Ascii.eqb c old) eqn:E; [|exact E].
  apply Ascii.eqb_neq. congruence.
Qed.

Lemma str_replace_absent (old new : ascii) (s : string) :
  has_char old s = false -> str_replace old new s = s.
Proof.
  induction s as [|c s IH]; simpl; [reflexivity|].
  intros Hno. apply orb_false_iff in Hno as [Hc Hs]. now rewrite Hc, IH.
Qed.

(** X4. The repository name never holds a slash; a task without a slash
    is its own repository name; and the derivation is idempotent, so
    that a task and its repository name, taken as a task, name the same
    repository. *)
Theorem repo_name_no_slash :
  (forall s, has_char slash (str_replace slash hyphen s) = false) /\
  (forall s, has_char slash s = false -> str_replace slash hyphen s = s) /\
  (forall s, str_replace slash hyphen (str_replace slash hyphen s)
               = str_replace slash hyphen s).
Proof.
  assert (forall s, has_char slash (str_replace slash hyphen s) = false) as Hno
    by (intros s; now apply str_replace_no_old).
  split; [exact Hno|]. split.
  - apply str_replace_absent.
  - intros s. apply str_replace_absent, Hno.
Qed.

Lemma repo_name_no_slash_witness : str_replace slash hyphen "a-b" = "a-b".
Proof.
  destruct repo_name_no_slash as (_ & Hsame & _). apply Hsame. reflexivity.
Defined.

(** ** The callback delivery at its ends *)

(** X5. When the first attempt of [_post_with_backoff] gets a 200, it
    returns [True] after that one request, without sleeping.  When all
    six attempts fail, it returns [False] after six requests and six
    sleeps, 1, 2, 4, 8, 16 and 32: it sleeps after the last attempt as
    well, 63 in all. *)
Theorem post_with_backoff_ends (url : json) (p : payload) (w : world) (k : nat) :
  let post := PostCallback url p in
  (delivered (oracle w k post) = true ->
   _post_with_backoff url p w k = (Ok true, [EHttp post (oracle w k post)])) /\
  ((forall i, (i < 6)%nat -> delivered (oracle w (k + i) post) = false) ->
   fst (_post_with_backoff url p w k) = Ok false /\
   calls (snd (_post_with_backoff url p w k)) = 6%nat /\
   sleeps (snd (_post_with_backoff url p w k)) = [1; 2; 4; 8; 16; 32] /\
   slept (snd (_post_with_backoff url p w k)) = 63).
Proof.
  intros post. unfold _post_with_backoff. split.
  - intros Hd. rewrite post_attempts_S. fold post. now rewrite Hd.
  - intros Hall.
    destruct (post_attempts_shape url p w 6 1 k) as (m & Hm & Hs & Hf & Hr).
    fold post in Hf, Hr.
    destruct Hr as [(_ & _ & Hlt & Hd)|(Hr & Hc & ->)].
    + rewrite (Hall m Hlt) in Hd. discriminate.
    + unfold slept. rewrite Hs. auto.
Qed.

Lemma post_with_backoff_ends_witness :
  _post_with_backoff Demo.cb Demo.p0 Demo.w_quiet 0%nat
  = (Ok false,
     snd (_post_with_backoff Demo.cb Demo.p0 Demo.w_quiet 0%nat)) /\
  slept (snd (_post_with_backoff Demo.cb Demo.p0 Demo.w_quiet 0%nat)) = 63.
Proof.
  destruct (post_with_backoff_ends Demo.cb Demo.p0 Demo.w_quiet 0%nat) as [_ Hall].
  destruct Hall as (Hr & _ & _ & Hs).
  - intros i _. reflexivity.
  - split; [|exact Hs].
    destruct (_post_with_backoff Demo.cb Demo.p0 Demo.w_quiet 0%nat) as [r tr].
    simpl in Hr. now rewrite Hr.
Defined.

(** ** What the stages raise *)

Section Raises.

Context `{PyRuntime}.

Lemma py_getitem_raises (v : json) (k : string) (e : exn) :
  py_getitem v k = Raise e -> exists x, e = PyExc x.
Proof.
  unfold py_getitem. destruct v as [| | | | |m|]; try (intros [= <-]; eauto).
  destruct (m !! k); [discriminate|]. intros [= <-]. eauto.
Qed.

Lemma login_result_raises (o : outcome) (e : exn) :
  login_result o = Raise e -> exists x, e = PyExc x.
Proof.
  unfold login_result. destruct o as [x|r]; [intros [= <-]; eauto|].
  destruct (is_success r); [|intros [= <-]; eauto].
  destruct (body r) as [j|]; [|intros [= <-]; eauto].
  apply py_getitem_raises.
Qed.

Lemma write_result_raises (o : outcome) (e : exn) :
  write_result o = Raise e -> exists x, e = PyExc x.
Proof.
  unfold write_result. destruct o as [x|r]; [intros [= <-]; eauto|].
  destruct (is_success r); [|intros [= <-]; eauto].
  destruct (body r) as [j|]; [|intros [= <-]; eauto].
  destruct (py_getitem j "commit") as [c|e'] eqn:E.
  - apply py_getitem_raises.
  - intros [= <-]. now apply py_getitem_raises in E.
Qed.

Lemma pages_result_raises (o : outcome) (e : exn) :
  pages_result o = Raise e -> exists x, e = PyExc x.
Proof.
  unfold pages_result. destruct o as [x|r]; [intros [= <-]; eauto|].
  destruct (Z.eqb (status_code r) 200); [|discriminate].
  destruct (body r) as [j|]; [|intros [= <-]; eauto].
  unfold py_get_method. destruct j; try (intros [= <-]; eauto); try discriminate.
Qed.

Lemma create_result_raises (o : outcome) (e : exn) :
  create_result o = Raise e ->
  (exists x, e = PyExc x) \/
  (exists r, o = Reply r /\ create_accepted r = false /\
             e = HTTPException 500 ("Create repo failed: " +:+ text r)).
Proof.
  unfold create_result. destruct o as [x|r]; [intros [= <-]; eauto|].
  destruct (create_accepted r) eqn:E; [discriminate|]. intros [= <-]. eauto.
Qed.

Lemma py_replace_raises (v : json) (old new : ascii) (e : exn) :
  py_replace v old new = Raise e -> e = PyExc AttributeError.
Proof.
  unfold py_replace. destruct v; try discriminate; now intros [= <-].
Qed.

Lemma py_iter_raises (v : json) (e : exn) :
  py_iter v = Raise e -> e = PyExc TypeError.
Proof.
  unfold py_iter. destruct v; try discriminate; now intros [= <-].
Qed.

Lemma gh_owner_raises (cfg : config) (w : world) (k : nat) (e : exn) (t : list event) :
  _gh_owner cfg w k = (Raise e, t) -> exists x, e = PyExc x.
Proof.
  rewrite gh_owner_run. destruct (env_set (OWNER cfg)); [discriminate|].
  intros [= Hr _]. now apply login_result_raises in Hr.
Qed.

Lemma put_files_raises (owner : json) (repo : string) (w : world)
    (files : list (json * content)) (last_commit : json) (k : nat)
    (e : exn) (t : list event) :
  put_files owner repo files last_commit w k = (Raise e, t) -> exists x, e = PyExc x.
Proof.
  intros Hrun.
  destruct (put_files_run_shape _ _ _ _ _ _ _ _ Hrun)
    as (done & rest & _ & _ & _ & [(_ & Hr & _)|(tr0 & c & o & e' & _ & Hw & Hr & _)]).
  - discriminate.
  - injection Hr as ->. now apply write_result_raises in Hw.
Qed.

Lemma poll_pages_raises (owner : json) (repo : string) (w : world) (n : nat)
    (v : json) (k : nat) (e : exn) (t : list event) :
  poll_pages n v owner repo w k = (Raise e, t) -> exists x, e = PyExc x.
Proof.
  intros Hrun.
  destruct (poll_pages_shape owner repo w n v k) as (m & _ & _ & _ & Hr).
  rewrite Hrun in Hr. cbn [fst snd] in Hr.
  destruct Hr as [(u & Hr & _)|[(e' & Hr & _ & _ & Hp)|(_ & _ & Hr)]]; try discriminate.
  injection Hr as ->. now apply pages_result_raises in Hp.
Qed.

End Raises.

(** ** The statuses of the handler *)

(** The four ways a run can end, by status and by the checks the request
    passed. *)
Lemma handle_status_cases `{PyRuntime} (cfg : config) (data : gmap string json)
    (w : world) :
  let st := response_status (fst (handle cfg data w 0%nat)) in
  (st = 500 /\ ~ configured cfg) \/
  (st = 403 /\ configured cfg /\ secret_matches cfg data = false) \/
  (st = 400 /\ configured cfg /\ secret_matches cfg data = true /\
   (exists z, round_of data = Ok z) /\ required_present data = false) \/
  ((st = 200 \/ st = 500) /\ configured cfg /\ secret_matches cfg data = true /\
   ((exists e, round_of data = Raise e) \/
    ((exists z, round_of data = Ok z) /\ required_present data = true))).
Proof.
  pose proof (handle_run_complete cfg data w) as Hrun.
  destruct (handle cfg data w 0%nat) as [r tr]. cbn [fst snd] in *.
  inversion Hrun as
    [ Hc | Hc Hs | e Hc Hs He | z Hc Hs Hz Hq
    | z e t1 Ha Ho | z owner t1 e Ha Ho Hk
    | z owner t1 repo e Ha Hv Hcr | z owner t1 repo e Ha Hv Hcr Hi
    | z owner t1 repo atts e t3 Ha Hv Hcr Hp
    | z owner t1 repo atts lc t3 e t4 Ha Hv Hcr Hp Hg
    | z owner t1 repo atts lc t3 found t4 Ha Hv Hcr Hp Hg ];
    subst; cbn zeta.
  - left. split; [reflexivity|]. intros [Ht Hs]. rewrite Ht, Hs in Hc. discriminate.
  - right. left. repeat split; auto; apply Hc.
  - right. right. right.
    destruct (py_int_raises _ _ He) as [-> |[-> | ->]]; repeat split; eauto; apply Hc.
  - right. right. left. repeat split; eauto; apply Hc.
  - destruct Ha as (Hc & Hs & Hz & Hq). right. right. right.
    destruct (gh_owner_raises _ _ _ _ _ Ho) as [x ->]. repeat split; eauto; apply Hc.
  - destruct Ha as (Hc & Hs & Hz & Hq). right. right. right.
    rewrite (py_replace_raises _ _ _ _ Hk). repeat split; eauto; apply Hc.
  - destruct Ha as (Hc & Hs & Hz & Hq). right. right. right.
    destruct (create_result_raises _ _ Hcr) as [[x ->]|(r & _ & _ & ->)];
      repeat split; eauto; apply Hc.
  - destruct Ha as (Hc & Hs & Hz & Hq). right. right. right.
    rewrite (py_iter_raises _ _ Hi). repeat split; eauto; apply Hc.
  - destruct Ha as (Hc & Hs & Hz & Hq). right. right. right.
    destruct (put_files_raises _ _ _ _ _ _ _ _ Hp) as [x ->]. repeat split; eauto; apply Hc.
  - destruct Ha as (Hc & Hs & Hz & Hq). right. right. right.
    destruct (poll_pages_raises _ _ _ _ _ _ _ _ Hg) as [x ->]. repeat split; eauto; apply Hc.
  - destruct Ha as (Hc & Hs & Hz & Hq). right. right. right.
    repeat split; eauto; apply Hc.
Qed.

(** X6. The response of [handle] has status 200, 400, 403 or 500 and no
    other.  It is the 403 exactly when the server is configured and the
    secret does not match. *)
Theorem handle_status_codes `{PyRuntime} (cfg : config) (data : gmap string json)
    (w : world) :
  let st := response_status (fst (handle cfg data w 0%nat)) in
  (st = 200 \/ st = 400 \/ st = 403 \/ st = 500) /\
  (st = 403 <->
   configured cfg /\ py_eq_env (dict_get data "secret") (SHARED_SECRET cfg) = false).
Proof.
  intros st. subst st.
  destruct (handle_status_cases cfg data w)
    as [(-> & Hc)|[(-> & Hc & Hs)|[(-> & Hc & Hs & Hz & Hq)|(Hst & Hc & Hs & Hr)]]].
  - split; [auto|]. split; [discriminate|]. intros [Hc' _]. now destruct Hc.
  - split; [auto|]. split; auto.
  - split; [auto|]. split; [discriminate|]. unfold secret_matches in Hs.
    intros [_ Hs']. congruence.
  - split; [destruct Hst as [-> | ->]; auto|]. split.
    + destruct Hst as [-> | ->]; discriminate.
    + unfold secret_matches in Hs. intros [_ Hs']. congruence.
Qed.

(** X7. The response of [handle] is the 400 exactly when the server is
    configured, the secret matches, [round] is absent or converts to an
    integer, and one of [email], [task], [nonce], [evaluation_url] is
    absent or falsy: [null], [false], 0, an empty string, list or
    object. *)
Theorem handle_400_iff `{PyRuntime} (cfg : config) (data : gmap string json)
    (w : world) :
  response_status (fst (handle cfg data w 0%nat)) = 400 <->
  configured cfg /\
  py_eq_env (dict_get data "secret") (SHARED_SECRET cfg) = true /\
  (exists z, py_int (dict_get_default data "round" (JInt 1)) = Ok z) /\
  exists k, In k ["email"; "task"; "nonce"; "evaluation_url"] /\
            truthy (dict_get data k) = false.
Proof.
  assert (required_present data = false <->
          exists k, In k ["email"; "task"; "nonce"; "evaluation_url"] /\
                    truthy (dict_get data k) = false) as Hreq.
  { unfold required_present. cbn [forallb]. split.
    - intros Hf.
      destruct (truthy (dict_get data "email")) eqn:E1;
        [|exists "email"; split; [cbn [In]; auto|assumption]].
      destruct (truthy (dict_get data "task")) eqn:E2;
        [|exists "task"; split; [cbn [In]; auto|assumption]].
      destruct (truthy (dict_get data "nonce")) eqn:E3;
        [|exists "nonce"; split; [cbn [In]; auto|assumption]].
      destruct (truthy (dict_get data "evaluation_url")) eqn:E4;
        [discriminate|exists "evaluation_url"; split; [cbn [In]; auto|assumption]].
    - intros (k & Hk & Hf). simpl in Hk.
      destruct Hk as [<-|[<-|[<-|[<-|[]]]]]; rewrite Hf;
        rewrite ?andb_false_r; reflexivity. }
  rewrite <- Hreq.
  destruct (handle_status_cases cfg data w)
    as [(-> & Hc)|[(-> & Hc & Hs)|[(-> & Hc & Hs & Hz & Hq)|(Hst & Hc & Hs & Hr)]]];
    unfold secret_matches, round_of in *.
  - split; [discriminate|]. intros [Hc' _]. now destruct Hc.
  - split; [discriminate|]. intros (_ & Hs' & _). congruence.
  - split; auto.
  - split.
    + destruct Hst as [-> | ->]; discriminate.
    + intros (_ & _ & [z Hz] & Hq).
      destruct Hr as [[e He]|[_ Hq']]; congruence.
Qed.

Lemma handle_status_codes_witness :
  response_status
    (fst (@handle Reference.runtime Demo.cfg Demo.intruder Demo.w_quiet 0%nat)) = 403.
Proof.
  apply (proj2 (@handle_status_codes Reference.runtime Demo.cfg Demo.intruder Demo.w_quiet)).
  split; [split; reflexivity|reflexivity].
Defined.

Lemma handle_400_iff_witness :
  response_status
    (fst (@handle Reference.runtime Demo.cfg Demo.empty_nonce Demo.w_quiet 0%nat)) = 400.
Proof.
  apply (@handle_400_iff Reference.runtime Demo.cfg Demo.empty_nonce Demo.w_quiet).
  split; [split; reflexivity|]. split; [reflexivity|]. split; [exists 1; reflexivity|].
  exists "nonce". split; [cbn [In]; auto|reflexivity].
Defined.

(** ** The order and the number of the requests *)

Lemma slept_app (t1 t2 : list event) : slept (t1 ++ t2) = slept t1 + slept t2.
Proof.
  unfold slept. rewrite sleeps_app.
  induction (sleeps t1) as [|d l IH]; simpl; [reflexivity|]. rewrite IH. lia.
Qed.

Lemma sleeps_none (t : list event) :
  (forall e, In e t -> kind_of e <> KSleep) -> sleeps t = [].
Proof.
  induction t as [|e t IH]; intros Hno; [reflexivity|].
  assert (sleeps t = []) as Ht by (apply IH; intros e' He'; apply Hno; now right).
  pose proof (Hno e (or_introl eq_refl)) as He.
  destruct e as [c o|d]; simpl; auto. now destruct He.
Qed.

Lemma calls_le_length (t : list event) : (calls t <= length t)%nat.
Proof.
  induction t as [|[c o|d] t IH]; simpl; lia.
Qed.

Lemma decoded_attachments_length `{PyRuntime} (atts : list json) :
  (length (decoded_attachments atts) <= length atts)%nat.
Proof.
  unfold decoded_attachments.
  induction atts as [|att atts IH]; [reflexivity|].
  cbn [omap list_omap]. destruct (attachment_file att); cbn [length]; lia.
Qed.

Lemma slept_replicate (m : nat) (d : Z) :
  fold_right Z.add 0 (replicate m d) = Z.of_nat m * d.
Proof.
  induction m as [|m IH]; [reflexivity|].
  cbn [replicate fold_right]. rewrite IH. lia.
Qed.

Lemma slept_backoff (m : nat) :
  (m <= 6)%nat -> 0 <= fold_right Z.add 0 (backoff_delays m 1) <= 63.
Proof.
  intros Hm.
  do 7 (destruct m as [|m]; [cbn [backoff_delays fold_right]; lia|]). lia.
Qed.

(** The five blocks of a trace of [handle], in their order: the owner
    lookup, the create call, the writes, the polls and the deliveries,
    each possibly empty. *)
Lemma handle_segments `{PyRuntime} (cfg : config) (data : gmap string json) (w : world) :
  exists t1 t2 t3 t4 t5,
    snd (handle cfg data w 0%nat) = t1 ++ t2 ++ t3 ++ t4 ++ t5 /\
    (t1 = [] \/ (env_set (OWNER cfg) = false /\
                 t1 = [EHttp GetUser (oracle w 0%nat GetUser)])) /\
    (t2 = [] \/ exists repo o, t2 = [EHttp (CreateRepo repo) o]) /\
    ((forall e, In e t3 -> kind_of e = KPut) /\
     (forall atts, py_iter (dict_get_default data "attachments" (JList [])) = Ok atts ->
                   (length t3 <= 4 + length atts)%nat) /\
     (t2 = [] -> t3 = [])) /\
    (t4 = [] \/ exists owner repo k, t4 = snd (poll_pages 12 JNull owner repo w k)) /\
    (t5 = [] \/ exists url p k, t5 = snd (_post_with_backoff url p w k)).
Proof.
  pose proof (handle_run_complete cfg data w) as Hrun.
  destruct (handle cfg data w 0%nat) as [r tr]. cbn [fst snd] in *.
  assert (forall rr t1, _gh_owner cfg w 0%nat = (rr, t1) ->
            t1 = [] \/ (env_set (OWNER cfg) = false /\
                        t1 = [EHttp GetUser (oracle w 0%nat GetUser)])) as Howner.
  { intros rr t1. rewrite gh_owner_run.
    destruct (env_set (OWNER cfg)); intros [= _ <-]; auto. }
  assert (forall owner repo atts rr t3 k,
            py_iter (dict_get_default data "attachments" (JList [])) = Ok atts ->
            put_files owner repo (append_attachments (fixed_files (tm_year w) owner) atts)
              (JStr EmptyString) w k = (rr, t3) ->
            (forall e, In e t3 -> kind_of e = KPut) /\
            (forall atts', py_iter (dict_get_default data "attachments" (JList [])) = Ok atts' ->
                           (length t3 <= 4 + length atts')%nat)) as Hput.
  { intros owner repo atts rr t3 k Hit Hp. split.
    - intros e. now apply (put_files_kind _ _ _ _ _ _ _ _ _ Hp).
    - intros atts' Hit'. rewrite Hit in Hit'. injection Hit' as <-.
      destruct (put_files_run_shape _ _ _ _ _ _ _ _ Hp) as (done & rest & Hf & _ & Hl & _).
      rewrite append_attachments_decoded in Hf.
      apply (f_equal length) in Hf. rewrite !length_app in Hf. cbn [length fixed_files] in Hf.
      pose proof (decoded_attachments_length atts). lia. }
  inversion Hrun as
    [ Hc | Hc Hs | e Hc Hs He | z Hc Hs Hz Hq
    | z e t1 Ha Ho | z owner t1 e Ha Ho Hk
    | z owner t1 repo e Ha Hv Hcr | z owner t1 repo e Ha Hv Hcr Hi
    | z owner t1 repo atts e t3 Ha Hv Hcr Hp
    | z owner t1 repo atts lc t3 e t4 Ha Hv Hcr Hp Hg
    | z owner t1 repo atts lc t3 found t4 Ha Hv Hcr Hp Hg ];
    subst; try destruct Hv as [Ho Hk];
    try match goal with Hx : created _ _ _ _ _ |- _ => destruct Hx as [Hok Hit] end.
  1-4: exists [], [], [], [], []; repeat split; auto;
       try solve [intros ? []]; intros; simpl; lia.
  - match goal with Hx : _gh_owner _ _ _ = (_, ?t) |- _ => exists t, [], [], [], [] end.
    rewrite app_nil_r. repeat split; eauto.
    all: try solve [intros ? []]; intros; simpl; lia.
  - match goal with Hx : _gh_owner _ _ _ = (_, ?t) |- _ => exists t, [], [], [], [] end.
    rewrite app_nil_r. repeat split; eauto.
    all: try solve [intros ? []]; intros; simpl; lia.
  - exists t1, [create_event w (calls t1) repo], [], [], [].
    unfold create_event. repeat split; eauto.
    all: try solve [intros ? []]; try discriminate; intros; simpl; lia.
  - exists t1, [create_event w (calls t1) repo], [], [], [].
    unfold create_event. repeat split; eauto.
    all: try solve [intros ? []]; try discriminate; intros; simpl; lia.
  - destruct (Hput _ _ _ _ _ _ Hit Hp) as [Hk3 Hl3].
    exists t1, [create_event w (calls t1) repo], t3, [], [].
    unfold create_event. rewrite app_nil_r. repeat split; eauto. discriminate.
  - destruct (Hput _ _ _ _ _ _ Hit Hp) as [Hk3 Hl3].
    exists t1, [create_event w (calls t1) repo], t3, t4, [].
    unfold create_event. rewrite app_nil_r. repeat split; eauto; [discriminate|].
    right. exists owner, repo, (S (calls t1) + calls t3)%nat. now rewrite Hg.
  - destruct (Hput _ _ _ _ _ _ Hit Hp) as [Hk3 Hl3].
    eexists t1, [create_event w (calls t1) repo], t3, t4, _.
    unfold create_event. repeat split; eauto; [discriminate|].
    right. exists owner, repo, (S (calls t1) + calls t3)%nat. now rewrite Hg.
Qed.

Lemma poll_pages_bounds `{PyRuntime} (owner : json) (repo : string) (w : world) (k : nat) :
  (calls (snd (poll_pages 12 JNull owner repo w k)) <= 12)%nat /\
  0 <= slept (snd (poll_pages 12 JNull owner repo w k)) <= 60.
Proof.
  destruct (poll_pages_shape owner repo w 12 JNull k) as (m & Hm & Hs & _ & Hr).
  unfold slept. rewrite Hs, slept_replicate. split; [|lia].
  destruct Hr as [(u & _ & _ & Hc & Hlt & _)|[(e & _ & Hc & Hlt & _)|(_ & Hc & _)]];
    rewrite Hc; lia.
Qed.

Lemma post_with_backoff_bounds (url : json) (p : payload) (w : world) (k : nat) :
  (calls (snd (_post_with_backoff url p w k)) <= 6)%nat /\
  0 <= slept (snd (_post_with_backoff url p w k)) <= 63.
Proof.
  unfold _post_with_backoff.
  destruct (post_attempts_shape url p w 6 1 k) as (m & Hm & Hs & _ & Hr).
  unfold slept. rewrite Hs. split; [|now apply slept_backoff].
  destruct Hr as [(_ & Hc & Hlt & _)|(_ & Hc & _)]; rewrite Hc; lia.
Qed.

(** X8. The requests of every run of [handle] go out in one order: at
    most one owner lookup, then at most one create call, then the writes,
    then the polls, then the deliveries.  No write is made without the
    create call before it, and the run sleeps only between polls and
    between deliveries. *)
Theorem handle_stage_order `{PyRuntime} (cfg : config) (data : gmap string json)
    (w : world) :
  exists t1 t2 t3 t4 t5,
    snd (handle cfg data w 0%nat) = t1 ++ t2 ++ t3 ++ t4 ++ t5 /\
    ((length t1 <= 1)%nat /\ forall e, In e t1 -> kind_of e = KUser) /\
    ((length t2 <= 1)%nat /\ forall e, In e t2 -> kind_of e = KCreate) /\
    ((t2 = [] -> t3 = []) /\ forall e, In e t3 -> kind_of e = KPut) /\
    (forall e, In e t4 -> kind_of e = KPages \/ e = ESleep 5) /\
    (forall e, In e t5 -> kind_of e = KCallback \/ kind_of e = KSleep).
Proof.
  destruct (handle_segments cfg data w)
    as (t1 & t2 & t3 & t4 & t5 & Htr & H1 & H2 & (H3 & _ & H23) & H4 & H5).
  exists t1, t2, t3, t4, t5. split; [exact Htr|].
  split; [|split; [|split; [|split]]].
  - destruct H1 as [-> |[_ ->]]; (split; [simpl; lia|]).
    + intros e [].
    + intros e [<-|[]]. reflexivity.
  - destruct H2 as [-> |(repo & o & ->)]; (split; [simpl; lia|]).
    + intros e [].
    + intros e [<-|[]]. reflexivity.
  - auto.
  - destruct H4 as [-> |(owner & repo & k & ->)]; [intros e []|].
    intros e Hin. destruct (poll_pages_events _ _ _ _ _ _ _ Hin) as [[o ->]| ->]; auto.
  - destruct H5 as [-> |(url & p & k & ->)]; [intros e []|].
    intros e. apply post_with_backoff_kind.
Qed.

Lemma handle_stage_order_witness :
  exists t1 t2 t3 t4 t5,
    snd (@handle Reference.runtime Demo.cfg Demo.data Demo.w_quiet 0%nat)
      = t1 ++ t2 ++ t3 ++ t4 ++ t5 /\
    (t2 = [] -> t3 = []).
Proof.
  destruct (@handle_stage_order Reference.runtime Demo.cfg Demo.data Demo.w_quiet)
    as (t1 & t2 & t3 & t4 & t5 & Htr & _ & _ & (H23 & _) & _).
  exists t1, t2, t3, t4, t5. split; assumption.
Defined.

(** X9. A run of [handle] makes at most 24 requests plus one for each
    attachment (one lookup, one create, four fixed files, twelve polls,
    six deliveries), and sleeps at most 60 + 63 = 123 in all. *)
Theorem handle_bounds `{PyRuntime} (cfg : config) (data : gmap string json)
    (w : world) :
  0 <= slept (snd (handle cfg data w 0%nat)) <= 123 /\
  forall atts,
    py_iter (dict_get_default data "attachments" (JList [])) = Ok atts ->
    (calls (snd (handle cfg data w 0%nat)) <= 24 + length atts)%nat.
Proof.
  destruct (handle_segments cfg data w)
    as (t1 & t2 & t3 & t4 & t5 & Htr & H1 & H2 & (H3 & Hl3 & _) & H4 & H5).
  rewrite Htr, !slept_app, !calls_app.
  assert (slept t1 = 0 /\ (calls t1 <= 1)%nat) as [Hs1 Hc1].
  { destruct H1 as [-> |[_ ->]]; split; simpl; try reflexivity; lia. }
  assert (slept t2 = 0 /\ (calls t2 <= 1)%nat) as [Hs2 Hc2].
  { destruct H2 as [-> |(repo & o & ->)]; split; simpl; try reflexivity; lia. }
  assert (slept t3 = 0) as Hs3.
  { unfold slept. rewrite sleeps_none; [reflexivity|].
    intros e Hin. rewrite (H3 e Hin). discriminate. }
  assert (0 <= slept t4 <= 60 /\ (calls t4 <= 12)%nat) as [Hs4 Hc4].
  { destruct H4 as [-> |(owner & repo & k & ->)].
    - split; [simpl; unfold slept; simpl; lia|simpl; lia].
    - destruct (poll_pages_bounds owner repo w k). auto. }
  assert (0 <= slept t5 <= 63 /\ (calls t5 <= 6)%nat) as [Hs5 Hc5].
  { destruct H5 as [-> |(url & p & k & ->)].
    - split; [simpl; unfold slept; simpl; lia|simpl; lia].
    - destruct (post_with_backoff_bounds url p w k). auto. }
  split; [lia|].
  intros atts Hatts. pose proof (Hl3 atts Hatts). pose proof (calls_le_length t3). lia.
Qed.

Lemma handle_bounds_witness :
  (calls (snd (@handle Reference.runtime Demo.cfg Demo.data Demo.w_quiet 0%nat)) <= 26)%nat.
Proof.
  destruct (@handle_bounds Reference.runtime Demo.cfg Demo.data Demo.w_quiet) as [_ Hc].
  apply (Hc Demo.atts). reflexivity.
Defined.

(** X10. With [GITHUB_OWNER] set, no run of [handle] asks the platform
    for the user.  With it unset or empty, the lookup is the first event
    of every run that passes the checks, and a lookup that fails (an
    exception, a status outside 200-299, a body without [login]) ends the
    run with its exception and without another request. *)
Theorem owner_override `{PyRuntime} (cfg : config) (data : gmap string json)
    (w : world) :
  (env_set (OWNER cfg) = true ->
   forall e, In e (snd (handle cfg data w 0%nat)) -> kind_of e <> KUser) /\
  (env_set (OWNER cfg) = false ->
   forall z, accepted cfg data z ->
   (exists rest, snd (handle cfg data w 0%nat)
                   = EHttp GetUser (oracle w 0%nat GetUser) :: rest) /\
   (forall ex, login_result (oracle w 0%nat GetUser) = Raise ex ->
               handle cfg data w 0%nat
                 = (Raise ex, [EHttp GetUser (oracle w 0%nat GetUser)]))).
Proof.
  split.
  - intros Hset e Hin Hk.
    destruct (handle_segments cfg data w)
      as (t1 & t2 & t3 & t4 & t5 & Htr & H1 & H2 & (H3 & _ & _) & H4 & H5).
    rewrite Htr in Hin.
    destruct H1 as [-> |[Hunset _]]; [|congruence].
    cases_in Hin.
    + destruct Hin.
    + destruct H2 as [-> |(repo & o & ->)]; [destruct Hin|].
      destruct Hin as [<-|[]]. discriminate.
    + rewrite (H3 e Hin) in Hk. discriminate.
    + destruct H4 as [-> |(owner & repo & k & ->)]; [destruct Hin|].
      destruct (poll_pages_events _ _ _ _ _ _ _ Hin) as [[o ->]| ->]; discriminate.
    + destruct H5 as [-> |(url & p & k & ->)]; [destruct Hin|].
      apply post_with_backoff_kind in Hin. destruct Hin; congruence.
  - intros Hunset z (Hc & Hs & Hz & Hq).
    unfold handle. rewrite bind_need_env.
    destruct Hc as [Ht Hss]. rewrite Ht, Hss. cbn [andb].
    unfold secret_matches in Hs. rewrite Hs. cbn [negb]. rewrite bind_lift.
    unfold round_of in Hz. rewrite Hz.
    unfold required_present in Hq. rewrite Hq. cbn [negb].
    rewrite bind_run, gh_owner_run, Hunset.
    destruct (login_result (oracle w 0%nat GetUser)) as [owner|ex] eqn:El.
    + split; [|discriminate]. cbn [app snd]. eauto.
    + split; [eauto|]. now intros ex' [= <-].
Qed.

Lemma owner_override_witness :
  exists rest,
    snd (@handle Reference.runtime Demo.cfg_lookup Demo.data Demo.w_stranger 0%nat)
      = EHttp GetUser (Demo.reply 401 "Bad credentials" None) :: rest.
Proof.
  destruct (@owner_override Reference.runtime Demo.cfg_lookup Demo.data Demo.w_stranger)
    as [_ Hlookup].
  destruct (Hlookup eq_refl 1) as [Hfirst _].
  - repeat split; reflexivity.
  - exact Hfirst.
Defined.

(** ** Requests that do not get through *)

(** X11. On a server without [GH_TOKEN] or without [SHARED_SECRET], an
    empty value counting as none, every request is answered with the
    [HTTPException] of status 500, whatever its secret and fields, and no
    event is emitted: the check comes before the secret is looked at. *)
Theorem unconfigured_server_error `{PyRuntime} (cfg : config) (data : gmap string json)
    (w : world) (n : nat) :
  env_set (GH_TOKEN cfg) = false \/ env_set (SHARED_SECRET cfg) = false ->
  handle cfg data w n
    = (Raise (HTTPException 500 "Missing GH_TOKEN or SHARED_SECRET"), []).
Proof.
  intros Hmiss. unfold handle. rewrite bind_need_env.
  destruct Hmiss as [-> | ->]; [reflexivity|now rewrite andb_false_r].
Qed.

Lemma unconfigured_server_error_witness :
  @handle Reference.runtime Demo.cfg_no_token Demo.intruder Demo.w_quiet 0%nat
    = (Raise (HTTPException 500 "Missing GH_TOKEN or SHARED_SECRET"), []).
Proof.
  apply (@unconfigured_server_error Reference.runtime). left. reflexivity.
Defined.

(** X12. A request whose [task] is not a string never gets to the create
    call: the run raises, and the only request it can have made is the
    owner lookup.  A task that is truthy without being a string (a
    number, a list) passes the field check and fails on [replace]. *)
Theorem task_not_a_string `{PyRuntime} (cfg : config) (data : gmap string json)
    (w : world) :
  (forall s, dict_get data "task" <> JStr s) ->
  (exists e, fst (handle cfg data w 0%nat) = Raise e) /\
  (forall ev, In ev (snd (handle cfg data w 0%nat)) -> kind_of ev = KUser) /\
  (forall z, accepted cfg data z -> env_set (OWNER cfg) = true ->
             handle cfg data w 0%nat = (Raise (PyExc AttributeError), [])).
Proof.
  intros Hns.
  assert (forall repo, py_replace (dict_get data "task") slash hyphen <> Ok repo) as Hno.
  { intros repo. unfold py_replace.
    destruct (dict_get data "task") eqn:E; try discriminate. now destruct (Hns s). }
  split; [|split].
  - pose proof (handle_run_complete cfg data w) as Hrun.
    destruct (handle cfg data w 0%nat) as [r tr]. cbn [fst snd] in *.
    inversion Hrun; subst; eauto;
      match goal with Hx : resolved _ _ _ _ _ _ |- _ => destruct Hx as [_ Hk] end;
      now destruct (Hno _ Hk).
  - pose proof (handle_run_complete cfg data w) as Hrun.
    destruct (handle cfg data w 0%nat) as [r tr]. cbn [fst snd] in *.
    intros ev Hin.
    inversion Hrun; subst;
      try match goal with Hx : resolved _ _ _ _ _ _ |- _ =>
            destruct Hx as [_ Hk]; now destruct (Hno _ Hk) end;
      try (now destruct Hin);
      match goal with Hx : _gh_owner _ _ _ = _ |- _ =>
        exact (gh_owner_kind _ _ _ _ _ _ Hx Hin) end.
  - intros z (Hc & Hs & Hz & Hq) Hset.
    unfold handle. rewrite bind_need_env.
    destruct Hc as [Ht Hss]. rewrite Ht, Hss. cbn [andb].
    unfold secret_matches in Hs. rewrite Hs. cbn [negb]. rewrite bind_lift.
    unfold round_of in Hz. rewrite Hz.
    unfold required_present in Hq. rewrite Hq. cbn [negb].
    rewrite bind_run, gh_owner_run, Hset. cbn [Nat.add calls fst snd app].
    rewrite bind_lift.
    destruct (py_replace (dict_get data "task") slash hyphen) as [repo|e] eqn:E.
    + now destruct (Hno repo).
    + now rewrite (py_replace_raises _ _ _ _ E).
Qed.

Lemma task_not_a_string_witness :
  @handle Reference.runtime Demo.cfg Demo.numeric_task Demo.w_quiet 0%nat
    = (Raise (PyExc AttributeError), []).
Proof.
  destruct (@task_not_a_string Reference.runtime Demo.cfg Demo.numeric_task Demo.w_quiet)
    as (_ & _ & Hraise).
  - intros s. vm_compute. discriminate.
  - apply (Hraise 1); [|reflexivity]. repeat split; reflexivity.
Defined.

(** X13. When [attachments] is present and not iterable ([null], a
    number, a boolean), no file is written, no poll and no delivery is
    made; and in a run whose create call went through, the result is the
    [TypeError] of the [for] statement: the repository is left created
    and empty. *)
Theorem attachments_not_iterable `{PyRuntime} (cfg : config) (data : gmap string json)
    (w : world) (e : exn) :
  py_iter (dict_get_default data "attachments" (JList [])) = Raise e ->
  (exists e', fst (handle cfg data w 0%nat) = Raise e') /\
  (forall ev, In ev (snd (handle cfg data w 0%nat)) ->
              kind_of ev = KUser \/ kind_of ev = KCreate) /\
  (forall repo o, In (EHttp (CreateRepo repo) o) (snd (handle cfg data w 0%nat)) ->
                  create_result o = Ok tt ->
                  fst (handle cfg data w 0%nat) = Raise (PyExc TypeError)).
Proof.
  intros Hit.
  pose proof (handle_run_complete cfg data w) as Hrun.
  destruct (handle cfg data w 0%nat) as [r tr]. cbn [fst snd] in *.
  split; [|split].
  - inversion Hrun; subst; eauto;
      match goal with Hx : created _ _ _ _ _ |- _ => destruct Hx as [_ Hx] end;
      congruence.
  - intros ev Hin.
    inversion Hrun; subst;
      try match goal with Hx : created _ _ _ _ _ |- _ =>
            destruct Hx as [_ Hx]; congruence end;
      try match goal with Hx : resolved _ _ _ _ _ _ |- _ => destruct Hx as [Hx _] end;
      cases_in Hin; try (now destruct Hin);
      try (subst ev; now right);
      left; match goal with Hx : _gh_owner _ _ _ = _ |- _ =>
              exact (gh_owner_kind _ _ _ _ _ _ Hx Hin) end.
  - intros repo o Hin Hok.
    inversion Hrun; subst;
      try match goal with Hx : created _ _ _ _ _ |- _ =>
            destruct Hx as [_ Hx]; congruence end;
      try match goal with Hx : resolved _ _ _ _ _ _ |- _ => destruct Hx as [Hx _] end;
      cases_in Hin; try wrong_stage;
      try (unfold create_event in Hin; injection Hin as <- <-).
    + congruence.
    + match goal with Hx : py_iter _ = Raise _ |- _ =>
        now rewrite (py_iter_raises _ _ Hx) end.
Qed.

Lemma attachments_not_iterable_witness :
  fst (@handle Reference.runtime Demo.cfg Demo.null_attachments Demo.w_quiet 0%nat)
    = Raise (PyExc TypeError).
Proof.
  destruct (@attachments_not_iterable Reference.runtime Demo.cfg Demo.null_attachments
              Demo.w_quiet (PyExc TypeError)) as (_ & _ & Hraise).
  - reflexivity.
  - apply (Hraise "a-b" (Demo.reply 201 "created" None)).
    + vm_compute. left. reflexivity.
    + reflexivity.
Defined.

(** ** A poll that raises *)

(** Turns [In e t], for the trace [t] of a stage, into the kind of [e]. *)
Ltac kind_of_in Hin :=
  match type of Hin with
  | In _ (snd (_post_with_backoff _ _ _ _)) => apply post_with_backoff_kind in Hin
  | In _ ?t =>
      match goal with
      | Hx : _gh_owner _ _ _ = (_, t) |- _ =>
          apply (gh_owner_kind _ _ _ _ _ _ Hx) in Hin
      | Hx : put_files _ _ _ _ _ _ = (_, t) |- _ =>
          apply (put_files_kind _ _ _ _ _ _ _ _ _ Hx) in Hin
      | Hx : poll_pages _ _ _ _ _ _ = (_, t) |- _ =>
          apply (poll_pages_kind _ _ _ _ _ _ _ _ _ Hx) in Hin
      end
  end.

(** Closes a goal in which an event of a known kind sits in a stage that
    emits none of that kind. *)
Ltac other_kind Hin :=
  solve [ destruct Hin
        | kind_of_in Hin; first [congruence | destruct Hin; congruence] ].

(** In the polling loop a poll that raises is the last event, and its
    exception the result. *)
Lemma poll_pages_raise_last `{PyRuntime} (owner : json) (repo : string) (w : world)
    (n : nat) (v : json) (k : nat) (c : call) (o : outcome) (e : exn) :
  In (EHttp c o) (snd (poll_pages n v owner repo w k)) ->
  pages_result o = Raise e ->
  fst (poll_pages n v owner repo w k) = Raise e /\
  exists t0, snd (poll_pages n v owner repo w k) = t0 ++ [EHttp c o].
Proof.
  revert v k. induction n as [|n IH]; intros v k.
  - simpl. intros [].
  - rewrite poll_pages_S.
    destruct (pages_result (oracle w k (GetPages (fmt owner) repo))) as [u|ex] eqn:E.
    + destruct (truthy u); cbn [fst snd].
      * intros [[= <- <-]|[]] Hr. congruence.
      * intros [[= <- <-]|[Hin|Hin]] Hr; [congruence|discriminate|].
        destruct (IH u (S k) Hin Hr) as (Hres & t0 & Ht0). split; [exact Hres|].
        exists (EHttp (GetPages (fmt owner) repo)
                  (oracle w k (GetPages (fmt owner) repo)) :: ESleep 5 :: t0).
        now rewrite Ht0.
    + cbn [fst snd]. intros [[= <- <-]|[]] Hr. split; [congruence|]. now exists [].
Qed.

(** X14. A poll of the pages endpoint that raises (a transport error, or
    a 200 whose body is no JSON object) is not taken as "not yet there":
    it ends the run of [handle] with its exception.  The poll is the last
    event of the run, and no delivery to the callback is made, although
    the files are written by then. *)
Theorem poll_failure_aborts `{PyRuntime} (cfg : config) (data : gmap string json)
    (w : world) (c : call) (o : outcome) (e : exn) :
  In (EHttp c o) (snd (handle cfg data w 0%nat)) ->
  kind_of (EHttp c o) = KPages ->
  pages_result o = Raise e ->
  fst (handle cfg data w 0%nat) = Raise e /\
  (exists t0, snd (handle cfg data w 0%nat) = t0 ++ [EHttp c o]) /\
  (forall ev, In ev (snd (handle cfg data w 0%nat)) -> kind_of ev <> KCallback).
Proof.
  pose proof (handle_run_complete cfg data w) as Hrun.
  destruct (handle cfg data w 0%nat) as [r tr]. cbn [fst snd] in *.
  intros Hin Hkind Hraise.
  inversion Hrun as
    [ Hc | Hc Hs | ex Hc Hs He | z Hc Hs Hz Hq
    | z ex t1 Ha Ho | z owner t1 ex Ha Ho Hk
    | z owner t1 repo ex Ha Hv Hcr | z owner t1 repo ex Ha Hv Hcr Hi
    | z owner t1 repo atts ex t3 Ha Hv Hcr Hp
    | z owner t1 repo atts lc t3 ex t4 Ha Hv Hcr Hp Hg
    | z owner t1 repo atts lc t3 found t4 Ha Hv Hcr Hp Hg ];
    subst; try destruct Hv as [Ho Hk];
    cases_in Hin; try other_kind Hin;
    try (unfold create_event in Hin; rewrite <- Hin in Hkind; discriminate Hkind).
  - pose proof (poll_pages_raise_last owner repo w 12 JNull
                  (S (calls t1) + calls t3)%nat c o e) as Hlast.
    rewrite Hg in Hlast. cbn [fst snd] in Hlast.
    destruct (Hlast Hin Hraise) as ([= ->] & t0 & ->).
    split; [reflexivity|]. split.
    + exists (t1 ++ create_event w (calls t1) repo :: t3 ++ t0).
      rewrite <- app_assoc. cbn [app]. now rewrite <- app_assoc.
    + intros ev Hev. cases_in Hev; try wrong_stage.
      * apply (gh_owner_kind _ _ _ _ _ _ Ho) in Hev. congruence.
      * subst ev. discriminate.
      * apply (put_files_kind _ _ _ _ _ _ _ _ _ Hp) in Hev. congruence.
      * assert (In ev (t0 ++ [EHttp c o])) as Hev' by (apply in_or_app; now left).
        apply (poll_pages_kind _ _ _ _ _ _ _ _ _ Hg) in Hev'. destruct Hev'; congruence.
      * subst ev. congruence.
  - pose proof (poll_pages_raise_last owner repo w 12 JNull
                  (S (calls t1) + calls t3)%nat c o e) as Hlast.
    rewrite Hg in Hlast. cbn [fst snd] in Hlast.
    destruct (Hlast Hin Hraise) as (Hbad & _). discriminate.
Qed.

Lemma poll_failure_aborts_witness :
  fst (@handle Reference.runtime Demo.cfg Demo.data Demo.w_cut 0%nat)
    = Raise (PyExc TransportError).
Proof.
  destruct (@poll_failure_aborts Reference.runtime Demo.cfg Demo.data Demo.w_cut
              (GetPages "octo" "a-b") (Fails TransportError) (PyExc TransportError))
    as (Hr & _).
  - vm_compute. repeat (first [left; reflexivity|right]).
  - reflexivity.
  - reflexivity.
  - exact Hr.
Defined.

(** ** The payload of a run that returns *)

(** X15. The dict a returning run gives back has [ok] true and echoes the
    request: [email], [task] and [nonce] are the request's, all truthy,
    and [round] is [int] of the request's, 1 when it has none.  The task
    is a string, [repo_url] ends in the repository name derived from it,
    and [pages_url] is never empty or [None]. *)
Theorem returned_payload `{PyRuntime} (cfg : config) (data : gmap string json)
    (w : world) (a : answer) :
  fst (handle cfg data w 0%nat) = Ok a ->
  ok a = true /\
  email (fields a) = dict_get data "email" /\
  task (fields a) = dict_get data "task" /\
  nonce (fields a) = dict_get data "nonce" /\
  forallb truthy [email (fields a); task (fields a); nonce (fields a)] = true /\
  py_int (dict_get_default data "round" (JInt 1)) = Ok (round (fields a)) /\
  (data !! "round" = None -> round (fields a) = 1) /\
  (exists s owner,
      task (fields a) = JStr s /\
      repo_url (fields a)
        = "https://github.com/" +:+ owner +:+ "/" +:+ str_replace slash hyphen s) /\
  truthy (pages_url (fields a)) = true.
Proof.
  pose proof (handle_run_complete cfg data w) as Hrun.
  destruct (handle cfg data w 0%nat) as [r tr]. cbn [fst snd] in *.
  intros ->.
  inversion Hrun as
    [ | | | | | | | | |
    | z owner t1 repo atts lc t3 found t4 Ha Hv Hcr Hp Hg ]; subst.
  destruct Ha as (Hc & Hs & Hz & Hq). destruct Hv as [Ho Hk].
  cbn [ok fields email task nonce round repo_url pages_url result_payload].
  unfold round_of in Hz. unfold required_present in Hq. cbn [forallb] in Hq |- *.
  repeat (apply andb_true_iff in Hq as [? Hq]).
  repeat split; auto.
  - repeat (apply andb_true_iff; split); auto.
  - intros Hnone. unfold dict_get_default in Hz. rewrite Hnone in Hz.
    simpl in Hz. now injection Hz as <-.
  - unfold py_replace in Hk. destruct (dict_get data "task") as [| | |s| | |];
      try discriminate. injection Hk as <-. exists s, (fmt owner). auto.
  - unfold pages_url_or_default. destruct (truthy found) eqn:E; [exact E|reflexivity].
Qed.

Lemma returned_payload_witness :
  fst (@handle Reference.runtime Demo.cfg Demo.data Demo.w_quiet 0%nat)
    = Ok {| ok := true; fields := Demo.p0 |} /\
  round Demo.p0 = 1.
Proof.
  assert (fst (@handle Reference.runtime Demo.cfg Demo.data Demo.w_quiet 0%nat)
            = Ok {| ok := true; fields := Demo.p0 |}) as Hrun
    by (vm_compute; reflexivity).
  split; [exact Hrun|].
  destruct (@returned_payload Reference.runtime Demo.cfg Demo.data Demo.w_quiet _ Hrun)
    as (_ & _ & _ & _ & _ & _ & Hround & _).
  apply Hround. reflexivity.
Defined.

(** ** Where the requests of a run go *)

Section Targets.

Context `{PyRuntime}.
Variables (cfg : config) (data : gmap string json) (w : world).
Variables (owner : json) (repo : string).

Lemma gh_owner_addressed (o' r' : string) (k : nat) (r : result json)
    (t : list event) (e : event) :
  _gh_owner cfg w k = (r, t) -> In e t -> addressed_to data o' r' e.
Proof.
  rewrite gh_owner_run. destruct (env_set (OWNER cfg)); intros [= _ <-].
  - intros [].
  - intros [<-|[]]. exact I.
Qed.

Lemma put_files_addressed (files : list (json * content)) (last_commit : json)
    (k : nat) (e : event) :
  In e (snd (put_files owner repo files last_commit w k)) ->
  addressed_to data (fmt owner) repo e.
Proof.
  revert last_commit k. induction files as [|f files IH]; intros last_commit k.
  - intros [].
  - rewrite put_files_cons.
    destruct (write_result _) as [sha|ex]; cbn [snd].
    + intros [<-|Hin]; [simpl; auto|]. now apply (IH sha (S k)).
    + intros [<-|[]]. simpl. auto.
Qed.

Lemma poll_pages_addressed (n : nat) (v : json) (k : nat) (e : event) :
  In e (snd (poll_pages n v owner repo w k)) ->
  addressed_to data (fmt owner) repo e.
Proof.
  intros Hin. destruct (poll_pages_events _ _ _ _ _ _ _ Hin) as [[o ->]| ->];
    simpl; auto.
Qed.

Lemma post_with_backoff_addressed (z : Z) (last_commit found : json) (k : nat)
    (e : event) :
  In e (snd (_post_with_backoff (dict_get data "evaluation_url")
               (result_payload data z owner repo last_commit found) w k)) ->
  addressed_to data (fmt owner) repo e.
Proof.
  intros Hin. destruct (post_attempts_events _ _ _ _ _ _ _ Hin) as [[o ->]|[d ->]];
    simpl; auto.
Qed.

End Targets.

(** X16. All requests of a run of [handle] are about one owner and one
    repository: the create call names the repository, every write goes
    into it with the commit message [add ] followed by the path, every
    poll asks for its pages, and every delivery goes to the request's
    [evaluation_url] with a payload whose [repo_url] is that
    repository's. *)
Theorem requests_addressed `{PyRuntime} (cfg : config) (data : gmap string json)
    (w : world) :
  exists owner repo,
    forall e, In e (snd (handle cfg data w 0%nat)) -> addressed_to data owner repo e.
Proof.
  pose proof (handle_run_complete cfg data w) as Hrun.
  destruct (handle cfg data w 0%nat) as [r tr]. cbn [fst snd] in *.
  inversion Hrun as
    [ Hc | Hc Hs | ex Hc Hs He | z Hc Hs Hz Hq
    | z ex t1 Ha Ho | z owner t1 ex Ha Ho Hk
    | z owner t1 repo ex Ha Hv Hcr | z owner t1 repo ex Ha Hv Hcr Hi
    | z owner t1 repo atts ex t3 Ha Hv Hcr Hp
    | z owner t1 repo atts lc t3 ex t4 Ha Hv Hcr Hp Hg
    | z owner t1 repo atts lc t3 found t4 Ha Hv Hcr Hp Hg ];
    subst; try destruct Hv as [Ho Hk].
  1-4: exists EmptyString, EmptyString; intros e [].
  1-2: exists EmptyString, EmptyString; intros e Hin;
       exact (gh_owner_addressed cfg data w _ _ _ _ _ _ Ho Hin).
  all: exists (fmt owner), repo; intros e Hin; cases_in Hin;
       try exact (gh_owner_addressed cfg data w _ _ _ _ _ _ Ho Hin);
       try (subst e; reflexivity);
       try (now destruct Hin).
  - pose proof (put_files_addressed data w owner repo
                  (append_attachments (fixed_files (tm_year w) owner) atts)
                  (JStr EmptyString) (S (calls t1)) e) as Hw. rewrite Hp in Hw. auto.
  - pose proof (put_files_addressed data w owner repo
                  (append_attachments (fixed_files (tm_year w) owner) atts)
                  (JStr EmptyString) (S (calls t1)) e) as Hw. rewrite Hp in Hw. auto.
  - pose proof (poll_pages_addressed data w owner repo 12 JNull
                  (S (calls t1) + calls t3)%nat e) as Hw. rewrite Hg in Hw. auto.
  - pose proof (put_files_addressed data w owner repo
                  (append_attachments (fixed_files (tm_year w) owner) atts)
                  (JStr EmptyString) (S (calls t1)) e) as Hw. rewrite Hp in Hw. auto.
  - pose proof (poll_pages_addressed data w owner repo 12 JNull
                  (S (calls t1) + calls t3)%nat e) as Hw. rewrite Hg in Hw. auto.
  - now apply post_with_backoff_addressed in Hin.
Qed.

Lemma requests_addressed_witness :
  exists owner repo,
    forall e, In e (snd (@handle Reference.runtime Demo.cfg Demo.data Demo.w_quiet 0%nat)) ->
              addressed_to Demo.data owner repo e.
Proof.
  exact (@requests_addressed Reference.runtime Demo.cfg Demo.data Demo.w_quiet).
Defined.

(** ** The word [exists] in the reply of the create call *)

(** X17. The create call goes through exactly on a status 201 or when the
    lower-cased text of the reply holds the six letters [exists]
    somewhere, whatever the status and whatever stands around them; every
    other reply raises. *)
Theorem create_repo_accepts_iff (owner : json) (repo : string)
    (w : world) (k : nat) (r : http_response) :
  oracle w k (CreateRepo repo) = Reply r ->
  (fst (_gh_create_repo owner repo w k) = Ok tt <->
   status_code r = 201 \/ exists a b, str_lower (text r) = a +:+ "exists" +:+ b).
Proof.
  intros Hr. rewrite gh_create_repo_run, Hr. cbn [fst]. unfold create_result, create_accepted.
  rewrite <- str_contains_spec.
  destruct (Z.eqb (status_code r) 201) eqn:E1.
  - apply Z.eqb_eq in E1. split; auto.
  - apply Z.eqb_neq in E1. cbn [orb].
    destruct (str_contains "exists" (str_lower (text r))); split; auto.
    + discriminate.
    + intros [H201|Hc]; [now destruct E1|discriminate].
Qed.

Lemma create_repo_accepts_iff_witness :
  fst (_gh_create_repo (JStr "octo") "a-b" Demo.w_again 0%nat) = Ok tt.
Proof.
  apply (create_repo_accepts_iff (JStr "octo") "a-b" Demo.w_again 0%nat
           {| status_code := 422;
              text := "Repository creation failed: name already EXISTS";
              body := None |}).
  - reflexivity.
  - right. exists "repository creation failed: name already ", EmptyString. reflexivity.
Defined.
